(** * Data-quality flags of the EDA helper (eda_cli/core.py)

    A shallow embedding of [compute_quality_flags] and of the fragment of
    Python, NumPy and pandas it runs on, followed by the properties of the
    quality report that the specification states.

    - Python [float] and [numpy.float64] are IEEE binary64 numbers: they are
      Rocq's primitive floats, and every arithmetic fact used below is derived
      from the [SpecFloat] description of the operations.
    - The keyword dictionary [**kwargs] is a finite map from names to Python
      objects.
    - A DataFrame is an ordered sequence of labelled, typed columns plus the
      length of its index; a cell is either missing or holds a scalar.
    - The function body runs in a state-and-exception monad whose state is the
      DataFrame object the caller passed.

    The first part holds the definitions, the second the facts about them and
    the properties of the report, first on every frame and then at the
    frames of the test-suite. *)

From Stdlib Require Import ZArith Floats Uint63 Lia Ascii String.
From stdpp Require Import base decidable option list strings gmap.

Set Warnings "-inexact-float".
Local Open Scope Z_scope.

(** * The embedding *)

(** ** IEEE binary64: the specification-level vocabulary *)

Module SF.

Definition one : spec_float := S754_finite false 4503599627370496 (-52).

(** The sign bit of [x] is [s], or [x] is not a number. *)
Definition has_sign (s : bool) (x : spec_float) : Prop :=
  match x with
  | S754_zero s' | S754_infinity s' | S754_finite s' _ _ => s' = s
  | S754_nan => True
  end.

End SF.

(** ** Python floats *)

Module PyFloat.
Local Open Scope float_scope.

(** Conversion of a non-negative count (a Python [int] or a [numpy.int64])
    to binary64, rounding to nearest.  Counts are lengths of lists held in
    memory and stay below [2 ^ 63], the range of [numpy.int64]; the
    conversion goes through the 63-bit machine integer of that value. *)
Definition of_count (n : nat) : float := of_uint63 (of_Z (Z.of_nat n)).

(** Conversion of a Python [int] of either sign. *)
Definition of_int (z : Z) : float :=
  if (z <? 0)%Z then - of_uint63 (of_Z (- z)) else of_uint63 (of_Z z).

(** [a > b] *)
Definition gt (a b : float) : bool := b <? a.

(** The builtins [max(a, b)] and [min(a, b)]: the second argument replaces
    the first only when it compares strictly greater (smaller). *)
Definition max2 (a b : float) : float := if a <? b then b else a.
Definition min2 (a b : float) : float := if b <? a then b else a.

(** [Series.max()]: NaN entries are skipped, an empty selection gives NaN. *)
Definition series_max (l : list float) : float :=
  match List.filter (fun x => negb (is_nan x)) l with
  | [] => nan
  | x :: t => fold_left (fun acc y => if acc <? y then y else acc) t x
  end.

Definition nonneg (f : float) : Prop := SF.has_sign false (Prim2SF f).

End PyFloat.

(** ** Python strings: [str.lower] and the substring test [in] *)

Module PyStr.
Local Open Scope nat_scope.

(** [str.lower] on one character of an ASCII label. *)
Definition lower_ascii (c : ascii) : ascii :=
  let n := nat_of_ascii c in
  if (65 <=? n) && (n <=? 90) then ascii_of_nat (n + 32) else c.

Fixpoint lower (s : string) : string :=
  match s with
  | EmptyString => EmptyString
  | String c t => String (lower_ascii c) (lower t)
  end.

Fixpoint starts_with (needle s : string) : bool :=
  match needle, s with
  | EmptyString, _ => true
  | String a n', String b s' => bool_decide (a = b) && starts_with n' s'
  | String _ _, EmptyString => false
  end.

(** [needle in s] *)
Fixpoint contains (needle s : string) : bool :=
  starts_with needle s ||
  match s with
  | EmptyString => false
  | String _ t => contains needle t
  end.

End PyStr.

(** ** Python objects, exceptions and the keyword dictionary *)

(** The objects a caller can bind to a keyword: numbers and, as
    representatives of everything that is not a number, strings and [None]. *)
Inductive pyobj :=
| PyInt (z : Z)
| PyFloat (f : float)
| PyStr (s : string)
| PyNone.

(** [InvalidConfiguration] is the error kind named by the specification; the
    other three are the exceptions the interpreter and pandas can raise in
    the code below. *)
Inductive exn := TypeError | ValueError | KeyError | InvalidConfiguration.

Inductive result (A : Type) :=
| Ok (a : A)
| Raise (e : exn).
Arguments Ok {A} a.
Arguments Raise {A} e.

Abbreviation kwargs_t := (gmap string pyobj).

(** [kwargs.get(key, default)] *)
Definition kwargs_get (kwargs : kwargs_t) (key : string) (default : pyobj) : pyobj :=
  match kwargs !! key with
  | Some v => v
  | None => default
  end.

(** [n > f] for a Python [int] and a [float]: Python compares the two
    numbers exactly, without converting the integer. *)
Definition int_gt_float (n : Z) (f : float) : bool :=
  match Prim2SF f with
  | S754_nan => false
  | S754_infinity s => s
  | S754_zero _ => 0 <? n
  | S754_finite s m e =>
      let v := if s then Zneg m else Zpos m in
      if 0 <=? e then v * 2 ^ e <? n else v <? n * 2 ^ (- e)
  end.

(** [n > o] for a Python [int] [n]: exact against an [int] or a [float], a
    [TypeError] against anything else. *)
Definition int_gt (n : nat) (o : pyobj) : result bool :=
  match o with
  | PyInt t => Ok (t <? Z.of_nat n)
  | PyFloat f => Ok (int_gt_float (Z.of_nat n) f)
  | PyStr _ | PyNone => Raise TypeError
  end.

(** [x > o] for a [numpy.float64] [x]: the other operand is converted to
    binary64 when it is a number, a [TypeError] otherwise. *)
Definition float_gt (x : float) (o : pyobj) : result bool :=
  match o with
  | PyInt t => Ok (PyFloat.gt x (PyFloat.of_int t))
  | PyFloat f => Ok (PyFloat.gt x f)
  | PyStr _ | PyNone => Raise TypeError
  end.

Definition is_numeric (o : pyobj) : bool :=
  match o with
  | PyInt _ | PyFloat _ => true
  | PyStr _ | PyNone => false
  end.


(** ** The state-and-exception monad of the function body

    The state is the object the caller passed; an action returns the state it
    leaves behind together with a value or a raised exception. *)

Definition py (S A : Type) : Type := S -> S * result A.

Definition ret {S A : Type} (a : A) : py S A := fun st => (st, Ok a).

Definition raise {S A : Type} (e : exn) : py S A := fun st => (st, Raise e).

Definition bind {S A B : Type} (m : py S A) (k : A -> py S B) : py S B :=
  fun st =>
    match m st with
    | (st', Ok a) => k a st'
    | (st', Raise e) => (st', Raise e)
    end.

(** An attribute access or method call that only inspects the object. *)
Definition reads {S A : Type} (f : S -> A) : py S A := fun st => (st, Ok (f st)).

(** An operation on values that may raise. *)
Definition lift {S A : Type} (r : result A) : py S A := fun st => (st, r).

Notation "x <- m ;; k" := (bind m (fun x => k))
  (at level 100, m at next level, right associativity).

(** A [for] loop that appends to a list: [acc] is the list built so far. *)
Fixpoint for_each {S A B : Type} (l : list A) (body : A -> B -> py S B) (acc : B) : py S B :=
  match l with
  | [] => ret acc
  | x :: t => acc' <- body x acc ;; for_each t body acc'
  end.

(** [quiet m]: running [m] leaves the state as it found it, and [m] never
    raises [InvalidConfiguration]. *)
Definition quiet {S A : Type} (m : py S A) : Prop :=
  forall st, fst (m st) = st /\ snd (m st) <> Raise InvalidConfiguration.

(** ** The quality report *)

(** The [metrics] sub-dictionary. *)
Record Metrics := {
  missing_shares : list (string * float);
  duplicate_rows_count : nat;
  constant_columns : list string;
  high_cardinality_columns : list (string * nat);
  suspicious_id_columns : list (string * nat);
  many_zero_columns : list (string * float)
}.

(** The [flags] dictionary the function returns. *)
Record Report := {
  has_missing : bool;
  has_duplicate_rows : bool;
  has_constant_column : bool;
  has_high_cardinality_categories : bool;
  has_suspicious_id_duplicates : bool;
  has_many_zero_values : bool;
  quality_score : float;
  metrics : Metrics
}.

(** ** DataFrames *)

Inductive dtype := Int64 | Float64 | Bool | Object | Category | Datetime64.

(** [select_dtypes(include=[np.number])] *)
Definition is_number (d : dtype) : bool :=
  match d with
  | Int64 | Float64 => true
  | _ => false
  end.

(** [select_dtypes(include=['object', 'category'])] *)
Definition is_object_or_category (d : dtype) : bool :=
  match d with
  | Object | Category => true
  | _ => false
  end.

(** [Series.duplicated()] with the default [keep='first']: an entry is marked
    when an equal entry occurs before it. *)
Fixpoint duplicated_from {A : Type} `{EqDecision A} (seen l : list A) : list bool :=
  match l with
  | [] => []
  | x :: t => bool_decide (x ∈ seen) :: duplicated_from (x :: seen) t
  end.

Definition duplicated {A : Type} `{EqDecision A} (l : list A) : list bool :=
  duplicated_from [] l.

(** [.sum()] of a boolean Series *)
Definition sum_true (l : list bool) : nat := length (List.filter (fun b => b) l).

(** The entries [duplicated] leaves unmarked: the first occurrence of every
    value that is not in [seen]. *)
Fixpoint first_occurrences_from {A : Type} `{EqDecision A} (seen l : list A) : list A :=
  match l with
  | [] => []
  | x :: t =>
      if bool_decide (x ∈ seen)
      then first_occurrences_from (x :: seen) t
      else x :: first_occurrences_from (x :: seen) t
  end.

Section Pandas.

(** The scalars a cell can hold, with the equality pandas hashes them by,
    and the comparison [v == 0]. *)
Context {scalar : Type} `{EqDecision scalar}.
Variable is_zero : scalar -> bool.

(** A cell: [None] is a missing entry ([NaN], [None], [NaT]). *)
Definition cell : Type := option scalar.

Record Column := {
  col_name : string;
  col_dtype : dtype;
  col_values : list cell
}.

(** A frame: the length of its index and its columns, in order. *)
Record DataFrame := {
  index_len : nat;
  df_cols : list Column
}.

(** The result of [df[label]]: a Series when the label is unique, a frame
    of all the columns that carry it otherwise. *)
Inductive item :=
| ItemSeries (v : list cell)
| ItemFrame (sub : DataFrame).

(** *** Series *)

Definition is_missing (c : cell) : bool :=
  match c with
  | None => true
  | Some _ => false
  end.

(** [s.isnull().sum()] *)
Definition series_isnull_sum (v : list cell) : nat := length (List.filter is_missing v).

(** [s.nunique()]: the number of distinct values, missing entries dropped. *)
Definition series_nunique (v : list cell) : nat := length (remove_dups (omap id v)).

(** [(s == 0).sum()] *)
Definition series_eq_zero_sum (v : list cell) : nat :=
  length (List.filter (fun c => match c with Some x => is_zero x | None => false end) v).

(** *** Frames *)

(** [len(df)] *)
Definition df_len (df : DataFrame) : nat := index_len df.

(** [df.columns] *)
Definition df_columns (df : DataFrame) : list string := map col_name (df_cols df).

(** [df.empty] *)
Definition df_empty (df : DataFrame) : bool :=
  (index_len df =? 0)%nat || (length (df_cols df) =? 0)%nat.

(** The rows of the frame, one list of cells per index position. *)
Definition df_rows (df : DataFrame) : list (list (option cell)) :=
  map (fun i => map (fun c => col_values c !! i) (df_cols df)) (seq 0 (index_len df)).

(** [df.duplicated()]: an empty frame gives an empty Series. *)
Definition df_duplicated (df : DataFrame) : list bool :=
  if df_empty df then [] else duplicated (df_rows df).

(** [df.isnull().sum()]: a Series of counts indexed by the labels. *)
Definition df_isnull_sum (df : DataFrame) : list (string * nat) :=
  map (fun c => (col_name c, series_isnull_sum (col_values c))) (df_cols df).

(** [df.select_dtypes(include=...)] *)
Definition select_dtypes (include : dtype -> bool) (df : DataFrame) : DataFrame :=
  {| index_len := index_len df;
     df_cols := List.filter (fun c => include (col_dtype c)) (df_cols df) |}.

(** [df[label]] *)
Definition getitem (label : string) (df : DataFrame) : result item :=
  match List.filter (fun c => bool_decide (col_name c = label)) (df_cols df) with
  | [] => Raise KeyError
  | [c] => Ok (ItemSeries (col_values c))
  | cs => Ok (ItemFrame {| index_len := index_len df; df_cols := cs |})
  end.

Definition df_getitem (label : string) : py DataFrame item :=
  fun df => (df, getitem label df).

(** The exception of [if x > threshold:] when [x] is a Series: the
    comparison itself fails on a threshold that is not a number, and the
    truth value of its result is ambiguous otherwise. *)
Definition series_condition_error (threshold : pyobj) : exn :=
  if is_numeric threshold then ValueError else TypeError.

(** *** [compute_quality_flags(df, **kwargs)]

    The four loops of the function, in the order of the source; each is
    named after the list it fills. *)

(** 3. [constant_columns] *)
Definition constant_columns_loop : py DataFrame (list string) :=
  columns <- reads df_columns ;;
  for_each columns (fun col acc =>
    it <- df_getitem col ;;
    match it with
    | ItemSeries v => ret (if (series_nunique v =? 1)%nat then acc ++ [col] else acc)
    | ItemFrame _ => raise ValueError
    end) [].

(** 4. [high_cardinality_cols] *)
Definition high_cardinality_loop (high_cardinality_threshold : pyobj)
  : py DataFrame (list (string * nat)) :=
  categorical <- reads (fun df => df_columns (select_dtypes is_object_or_category df)) ;;
  for_each categorical (fun col acc =>
    it <- df_getitem col ;;
    match it with
    | ItemSeries v =>
        let unique_count := series_nunique v in
        above <- lift (int_gt unique_count high_cardinality_threshold) ;;
        ret (if above then acc ++ [(col, unique_count)] else acc)
    | ItemFrame _ => raise (series_condition_error high_cardinality_threshold)
    end) [].

(** 5. [suspicious_id_cols] *)
Definition suspicious_id_loop : py DataFrame (list (string * nat)) :=
  id_columns <-
    reads (fun df =>
      List.filter (fun col => PyStr.contains "id" (PyStr.lower col)) (df_columns df)) ;;
  for_each id_columns (fun id_col acc =>
    it <- df_getitem id_col ;;
    let duplicate_ids :=
      match it with
      | ItemSeries v => sum_true (duplicated v)
      | ItemFrame sub => sum_true (df_duplicated sub)
      end in
    ret (if (0 <? duplicate_ids)%nat then acc ++ [(id_col, duplicate_ids)] else acc)) [].

(** 6. [many_zero_cols] *)
Definition many_zero_loop (zero_threshold : pyobj) : py DataFrame (list (string * float)) :=
  numeric_cols <- reads (fun df => df_columns (select_dtypes is_number df)) ;;
  for_each numeric_cols (fun col acc =>
    it <- df_getitem col ;;
    n <- reads df_len ;;
    match it with
    | ItemSeries v =>
        let zero_count := series_eq_zero_sum v in
        let zero_share := (PyFloat.of_count zero_count / PyFloat.of_count n)%float in
        above <- lift (float_gt zero_share zero_threshold) ;;
        ret (if above then acc ++ [(col, zero_share)] else acc)
    | ItemFrame _ => raise (series_condition_error zero_threshold)
    end) [].

Definition compute_quality_flags (kwargs : kwargs_t) : py DataFrame Report :=
  (* 1. missing values *)
  missing_counts <- reads df_isnull_sum ;;
  n <- reads df_len ;;
  let missing_shares :=
    map (fun '(c, k) => (c, (PyFloat.of_count k / PyFloat.of_count n)%float)) missing_counts in
  let has_missing := existsb (fun '(_, k) => (0 <? k)%nat) missing_counts in
  (* 2. duplicate rows *)
  duplicate_count <- reads (fun df => sum_true (df_duplicated df)) ;;
  let has_duplicate_rows := (0 <? duplicate_count)%nat in
  (* 3. constant columns *)
  constant_columns <- constant_columns_loop ;;
  let has_constant_column := (0 <? length constant_columns)%nat in
  (* 4. high cardinality of the categorical columns *)
  let high_cardinality_threshold :=
    kwargs_get kwargs "high_cardinality_threshold" (PyInt 100) in
  high_cardinality_cols <- high_cardinality_loop high_cardinality_threshold ;;
  let has_high_cardinality_categories := (0 <? length high_cardinality_cols)%nat in
  (* 5. duplicated identifiers *)
  suspicious_id_cols <- suspicious_id_loop ;;
  let has_suspicious_id_duplicates := (0 <? length suspicious_id_cols)%nat in
  (* 6. many zeros in the numeric columns *)
  let zero_threshold := kwargs_get kwargs "zero_threshold" (PyFloat 0.5) in
  many_zero_cols <- many_zero_loop zero_threshold ;;
  let has_many_zero_values := (0 <? length many_zero_cols)%nat in
  (* the quality score *)
  let penalty := 0%float in
  let penalty :=
    if has_missing
    then (penalty + PyFloat.series_max (map snd missing_shares) * 0.3)%float
    else penalty in
  penalty <-
    (if has_duplicate_rows
     then n <- reads df_len ;;
          let duplicate_share := (PyFloat.of_count duplicate_count / PyFloat.of_count n)%float in
          ret (penalty + PyFloat.min2 (duplicate_share * 0.5) 0.2)%float
     else ret penalty) ;;
  penalty <-
    (if has_constant_column
     then n_columns <- reads (fun df => length (df_columns df)) ;;
          ret (penalty + 0.1 * PyFloat.of_count (length constant_columns)
                         / PyFloat.of_count n_columns)%float
     else ret penalty) ;;
  let penalty := if has_high_cardinality_categories then (penalty + 0.15)%float else penalty in
  let penalty := if has_suspicious_id_duplicates then (penalty + 0.2)%float else penalty in
  let penalty := if has_many_zero_values then (penalty + 0.1)%float else penalty in
  ret {| has_missing := has_missing;
         has_duplicate_rows := has_duplicate_rows;
         has_constant_column := has_constant_column;
         has_high_cardinality_categories := has_high_cardinality_categories;
         has_suspicious_id_duplicates := has_suspicious_id_duplicates;
         has_many_zero_values := has_many_zero_values;
         quality_score := PyFloat.max2 0 (1 - penalty);
         metrics :=
           {| missing_shares := missing_shares;
              duplicate_rows_count := duplicate_count;
              constant_columns := constant_columns;
              high_cardinality_columns := high_cardinality_cols;
              suspicious_id_columns := suspicious_id_cols;
              many_zero_columns := many_zero_cols |} |}.

(** *** The vocabulary of the properties

    The columns a label selects, what each loop contributes at one column,
    and the report read back field by field. *)

(** The columns that carry a label. *)
Definition with_label (label : string) (cols : list Column) : list Column :=
  List.filter (fun c => bool_decide (col_name c = label)) cols.

(** The label selects exactly one column. *)
Definition label_unique (df : DataFrame) (label : string) : bool :=
  match with_label label (df_cols df) with
  | [_] => true
  | _ => false
  end.

(** What loop 3 appends at a column: its label when [nunique() == 1]. *)
Definition constant_of (c : Column) : list string :=
  if (series_nunique (col_values c) =? 1)%nat then [col_name c] else [].

(** The columns loop 4 visits. *)
Definition categorical_cols (df : DataFrame) : list Column :=
  List.filter (fun c => is_object_or_category (col_dtype c)) (df_cols df).

(** What loop 4 appends at a column when the comparison does not raise. *)
Definition high_cardinality_of (threshold : pyobj) (c : Column) : list (string * nat) :=
  match int_gt (series_nunique (col_values c)) threshold with
  | Ok true => [(col_name c, series_nunique (col_values c))]
  | _ => []
  end.

(** The columns loop 5 visits: ['id' in col.lower()]. *)
Definition is_id_column (c : Column) : bool :=
  PyStr.contains "id" (PyStr.lower (col_name c)).

(** [df[id_col].duplicated().sum()] *)
Definition duplicate_ids_of (c : Column) : nat := sum_true (duplicated (col_values c)).

(** What loop 5 appends at a column. *)
Definition suspicious_of (c : Column) : list (string * nat) :=
  if (0 <? duplicate_ids_of c)%nat then [(col_name c, duplicate_ids_of c)] else [].

(** The columns loop 6 visits. *)
Definition numeric_cols (df : DataFrame) : list Column :=
  List.filter (fun c => is_number (col_dtype c)) (df_cols df).

(** [(df[col] == 0).sum() / len(df)] *)
Definition zero_share_of (df : DataFrame) (c : Column) : float :=
  (PyFloat.of_count (series_eq_zero_sum (col_values c)) / PyFloat.of_count (index_len df))%float.

(** What loop 6 appends at a column when the comparison does not raise. *)
Definition many_zero_of (threshold : pyobj) (df : DataFrame) (c : Column)
  : list (string * float) :=
  match float_gt (zero_share_of df c) threshold with
  | Ok true => [(col_name c, zero_share_of df c)]
  | _ => []
  end.

(** The largest missing share recorded in the report. *)
Definition max_missing_share (r : Report) : float :=
  PyFloat.series_max (map snd (missing_shares (metrics r))).

(** The share of duplicated rows. *)
Definition duplicate_row_share (r : Report) (df : DataFrame) : float :=
  (PyFloat.of_count (duplicate_rows_count (metrics r)) / PyFloat.of_count (index_len df))%float.

(** The sum of the contributions whose condition holds, accumulated from
    [0.0] in the order of the list. *)
Definition penalty_sum (contributions : list (bool * float)) : float :=
  fold_left
    (fun (acc : float) (c : bool * float) => if fst c then (acc + snd c)%float else acc)
    contributions 0%float.

(** The six contributions as the function computes them; the third one is
    [0.1 * len(constant_columns) / len(df.columns)], evaluated from left to
    right. *)
Definition contributions (r : Report) (df : DataFrame) : list (bool * float) :=
  [ (has_missing r, (max_missing_share r * 0.3)%float);
    (has_duplicate_rows r, PyFloat.min2 (duplicate_row_share r df * 0.5) 0.2);
    (has_constant_column r,
      (0.1 * PyFloat.of_count (length (constant_columns (metrics r)))
       / PyFloat.of_count (length (df_cols df)))%float);
    (has_high_cardinality_categories r, 0.15%float);
    (has_suspicious_id_duplicates r, 0.2%float);
    (has_many_zero_values r, 0.1%float) ].

(** The six contributions in the words of the specification; the third one
    is [0.1 * (num_constant_columns / num_total_columns)]. *)
Definition claimed_contributions (r : Report) (df : DataFrame) : list (bool * float) :=
  [ (has_missing r, (max_missing_share r * 0.3)%float);
    (has_duplicate_rows r, PyFloat.min2 (duplicate_row_share r df * 0.5) 0.2);
    (has_constant_column r,
      (0.1 * (PyFloat.of_count (length (constant_columns (metrics r)))
              / PyFloat.of_count (length (df_cols df))))%float);
    (has_high_cardinality_categories r, 0.15%float);
    (has_suspicious_id_duplicates r, 0.2%float);
    (has_many_zero_values r, 0.1%float) ].

(** The two thresholds the function reads from its keywords. *)
Definition high_cardinality_threshold_of (kwargs : kwargs_t) : pyobj :=
  kwargs_get kwargs "high_cardinality_threshold" (PyInt 100).

Definition zero_threshold_of (kwargs : kwargs_t) : pyobj :=
  kwargs_get kwargs "zero_threshold" (PyFloat 0.5).

(** [r] is the report of [df] under [kwargs], field by field. *)
Definition describes (kwargs : kwargs_t) (df : DataFrame) (r : Report) : Prop :=
  has_missing r = existsb (fun '(_, k) => (0 <? k)%nat) (df_isnull_sum df) /\
  missing_shares (metrics r) =
    map (fun '(c, k) => (c, (PyFloat.of_count k / PyFloat.of_count (index_len df))%float))
      (df_isnull_sum df) /\
  duplicate_rows_count (metrics r) = sum_true (df_duplicated df) /\
  has_duplicate_rows r = (0 <? duplicate_rows_count (metrics r))%nat /\
  constant_columns (metrics r) = concat (map constant_of (df_cols df)) /\
  has_constant_column r = (0 <? length (constant_columns (metrics r)))%nat /\
  snd (high_cardinality_loop (high_cardinality_threshold_of kwargs) df)
    = Ok (high_cardinality_columns (metrics r)) /\
  has_high_cardinality_categories r
    = (0 <? length (high_cardinality_columns (metrics r)))%nat /\
  suspicious_id_columns (metrics r)
    = concat (map suspicious_of (List.filter is_id_column (df_cols df))) /\
  has_suspicious_id_duplicates r = (0 <? length (suspicious_id_columns (metrics r)))%nat /\
  snd (many_zero_loop (zero_threshold_of kwargs) df) = Ok (many_zero_columns (metrics r)) /\
  has_many_zero_values r = (0 <? length (many_zero_columns (metrics r)))%nat /\
  quality_score r = PyFloat.max2 0 (1 - penalty_sum (contributions r df)).

(** Every column is as long as the index. *)
Definition aligned (df : DataFrame) : Prop :=
  Forall (fun c => length (col_values c) = index_len df) (df_cols df).

(** *** The [report] command (eda_cli/cli.py)

    Besides the flags, [report] computes the columns whose share of missing
    entries reaches [min_missing_share]. *)

(** [df.isnull().mean()]: per column, the mean of the missing indicator over
    the rows. *)
Definition isnull_mean (df : DataFrame) : list (string * float) :=
  map (fun c => (col_name c,
                 (PyFloat.of_count (series_isnull_sum (col_values c))
                  / PyFloat.of_count (index_len df))%float)) (df_cols df).

(** [missing_by_col[missing_by_col >= min_missing_share].index.tolist()] *)
Definition bad_missing_cols (min_missing_share : float) (df : DataFrame) : list string :=
  map fst (List.filter (fun p => (min_missing_share <=? snd p)%float) (isnull_mean df)).

End Pandas.

Arguments cell : clear implicits.
Arguments Column : clear implicits.
Arguments DataFrame : clear implicits.
Arguments item : clear implicits.

(** ** Frames of integers and strings

    The frames of the test-suite and of the specification's scenarios hold
    integers, strings and missing entries. *)

Inductive pyscalar :=
| SInt (z : Z)
| SStr (s : string).

#[global] Instance pyscalar_eq_dec : EqDecision pyscalar.
Proof. solve_decision. Defined.

(** [v == 0] *)
Definition pyscalar_is_zero (v : pyscalar) : bool :=
  match v with
  | SInt z => z =? 0
  | SStr _ => false
  end.

Definition ints (l : list Z) : list (cell pyscalar) := map (fun z => Some (SInt z)) l.

Definition strs (l : list string) : list (cell pyscalar) := map (fun s => Some (SStr s)) l.

(** [compute_quality_flags] on such frames. *)
Definition analyze (kwargs : kwargs_t) (df : DataFrame pyscalar) : DataFrame pyscalar * result Report :=
  compute_quality_flags pyscalar_is_zero kwargs df.

(** [{age: [10, 20, 30, None], height: [140, 150, 160, 170],
     city: ["A", "B", "A", None]}] *)
Definition sample_df : DataFrame pyscalar :=
  {| index_len := 4;
     df_cols :=
       [ {| col_name := "age"; col_dtype := Float64;
            col_values := ints [10; 20; 30] ++ [None] |};
         {| col_name := "height"; col_dtype := Int64;
            col_values := ints [140; 150; 160; 170] |};
         {| col_name := "city"; col_dtype := Object;
            col_values := strs ["A"; "B"; "A"] ++ [None] |} ] |}.

(** [{A: [1, 1, 1], B: [2, 3, 4]}] *)
Definition constant_df : DataFrame pyscalar :=
  {| index_len := 3;
     df_cols :=
       [ {| col_name := "A"; col_dtype := Int64; col_values := ints [1; 1; 1] |};
         {| col_name := "B"; col_dtype := Int64; col_values := ints [2; 3; 4] |} ] |}.

(** [{user_id: [1, 2, 2, 4]}] *)
Definition user_id_df : DataFrame pyscalar :=
  {| index_len := 4;
     df_cols :=
       [ {| col_name := "user_id"; col_dtype := Int64; col_values := ints [1; 2; 2; 4] |} ] |}.

(** [{order_id: [1, 2, 3, 4]}] *)
Definition order_id_df : DataFrame pyscalar :=
  {| index_len := 4;
     df_cols :=
       [ {| col_name := "order_id"; col_dtype := Int64; col_values := ints [1; 2; 3; 4] |} ] |}.

(** [{mostly_zeros: [0, 0, 0, 0, 0, 1]}] *)
Definition mostly_zeros_df : DataFrame pyscalar :=
  {| index_len := 6;
     df_cols :=
       [ {| col_name := "mostly_zeros"; col_dtype := Int64;
            col_values := ints [0; 0; 0; 0; 0; 1] |} ] |}.

(** [{cat: ["A", "B", "A"]}] *)
Definition cat_df : DataFrame pyscalar :=
  {| index_len := 3;
     df_cols :=
       [ {| col_name := "cat"; col_dtype := Object; col_values := strs ["A"; "B"; "A"] |} ] |}.

(** A frame with the column [a] and no rows. *)
Definition no_rows_df : DataFrame pyscalar :=
  {| index_len := 0;
     df_cols := [ {| col_name := "a"; col_dtype := Object; col_values := [] |} ] |}.

(** Four constant columns out of five, two rows that differ. *)
Definition four_of_five_df : DataFrame pyscalar :=
  {| index_len := 2;
     df_cols :=
       [ {| col_name := "a"; col_dtype := Int64; col_values := ints [1; 1] |};
         {| col_name := "b"; col_dtype := Int64; col_values := ints [1; 1] |};
         {| col_name := "c"; col_dtype := Int64; col_values := ints [1; 1] |};
         {| col_name := "e"; col_dtype := Int64; col_values := ints [1; 1] |};
         {| col_name := "f"; col_dtype := Int64; col_values := ints [1; 2] |} ] |}.

(** One column [cat] of a hundred distinct strings. *)
Definition hundred_categories_df : DataFrame pyscalar :=
  {| index_len := 100;
     df_cols :=
       [ {| col_name := "cat"; col_dtype := Object;
            col_values := strs (map (fun i => String (ascii_of_nat i) EmptyString) (seq 0 100)) |} ] |}.


(** An index of three rows and no column. *)
Definition no_columns_df : DataFrame pyscalar :=
  {| index_len := 3; df_cols := [] |}.

(** [{x: [7, 7, 8, None, None]}] *)
Definition repeats_df : DataFrame pyscalar :=
  {| index_len := 5;
     df_cols :=
       [ {| col_name := "x"; col_dtype := Float64;
            col_values := ints [7; 7; 8] ++ [None; None] |} ] |}.

(** * The properties *)

(** ** IEEE binary64 facts derived from [SpecFloat] *)

Module SFFacts.
Import SF.

Lemma digits2_pos_lower (p : positive) :
  2 ^ (Zpos (digits2_pos p) - 1) <= Zpos p.
Proof.
  induction p as [p IH | p IH |]; cbn [digits2_pos].
  - rewrite Pos2Z.inj_succ.
    replace (Z.succ (Zpos (digits2_pos p)) - 1) with (Z.succ (Zpos (digits2_pos p) - 1)) by lia.
    rewrite Z.pow_succ_r by lia. lia.
  - rewrite Pos2Z.inj_succ.
    replace (Z.succ (Zpos (digits2_pos p)) - 1) with (Z.succ (Zpos (digits2_pos p) - 1)) by lia.
    rewrite Z.pow_succ_r by lia. lia.
  - reflexivity.
Qed.

Lemma Zdigits2_le (m k : Z) :
  0 <= k -> 0 <= m -> m < 2 ^ k -> Zdigits2 m <= k.
Proof.
  intros Hk Hm Hlt. destruct m as [| p | p]; cbn [Zdigits2]; [lia | | lia].
  pose proof (digits2_pos_lower p) as Hlow.
  destruct (Z_le_gt_dec (Zpos (digits2_pos p)) k) as [|Hgt]; [assumption|].
  exfalso.
  assert (2 ^ k <= 2 ^ (Zpos (digits2_pos p) - 1)) by (apply Z.pow_le_mono_r; lia).
  lia.
Qed.

Lemma shr_m_of_loc (m : Z) (l : location) : shr_m (shr_record_of_loc m l) = m.
Proof. destruct l as [|[]]; reflexivity. Qed.

Lemma shr_1_m (r : shr_record) : 0 <= shr_m r -> shr_m (shr_1 r) = shr_m r / 2.
Proof.
  destruct r as [m r s]; cbn [shr_m]. intros Hm.
  destruct m as [| [p|p|] | p]; cbn [shr_1 shr_m].
  - reflexivity.
  - rewrite Pos2Z.inj_xI. apply Z.div_unique with (r := 1); lia.
  - rewrite Pos2Z.inj_xO. apply Z.div_unique with (r := 0); lia.
  - reflexivity.
  - lia.
Qed.

Lemma iter_shr_1_m (p : positive) :
  forall r, 0 <= shr_m r -> shr_m (SpecFloat.iter_pos shr_1 p r) = shr_m r / 2 ^ Zpos p.
Proof.
  induction p as [p IH | p IH |]; intros r Hr; cbn [SpecFloat.iter_pos].
  - assert (H1 : 0 <= shr_m (shr_1 r)) by (rewrite shr_1_m by assumption; apply Z.div_pos; lia).
    assert (H2 : 0 <= shr_m (SpecFloat.iter_pos shr_1 p (shr_1 r)))
      by (rewrite IH by assumption; apply Z.div_pos; [assumption | apply Z.pow_pos_nonneg; lia]).
    rewrite (IH _ H2), (IH _ H1), shr_1_m by assumption.
    rewrite !Z.div_div by (try apply Z.pow_pos_nonneg; lia).
    f_equal.
    replace (Zpos p~1) with (1 + Zpos p + Zpos p) by lia.
    rewrite !Z.pow_add_r by lia. rewrite Z.pow_1_r. lia.
  - assert (H2 : 0 <= shr_m (SpecFloat.iter_pos shr_1 p r))
      by (rewrite IH by assumption; apply Z.div_pos; [assumption | apply Z.pow_pos_nonneg; lia]).
    rewrite (IH _ H2), (IH _ Hr).
    rewrite !Z.div_div by (try apply Z.pow_pos_nonneg; lia).
    f_equal.
    replace (Zpos p~0) with (Zpos p + Zpos p) by lia.
    rewrite !Z.pow_add_r by lia. lia.
  - rewrite shr_1_m by assumption. rewrite Z.pow_1_r. reflexivity.
Qed.

(** What [shr_fexp] does to a non-negative mantissa: either it drops the
    [n] low bits that do not fit the format, or it leaves the number as it
    is. *)
Lemma shr_fexp_cases (m e : Z) (l : location) :
  0 <= m ->
  let n := fexp prec emax (Zdigits2 m + e) - e in
  let res := shr_fexp prec emax m e l in
  (0 < n /\ snd res = e + n /\ shr_m (fst res) = m / 2 ^ n) \/
  (n <= 0 /\ snd res = e /\ shr_m (fst res) = m).
Proof.
  intros Hm n res. subst res. unfold shr_fexp. fold n.
  destruct n as [| p | p] eqn:Hn; cbn [shr fst snd].
  - right. rewrite shr_m_of_loc. lia.
  - left. rewrite iter_shr_1_m by (rewrite shr_m_of_loc; assumption).
    rewrite shr_m_of_loc. repeat split; lia.
  - right. rewrite shr_m_of_loc. lia.
Qed.

Lemma fexp_le (x b : Z) : x <= b + 53 -> -1074 <= b -> fexp prec emax x <= b.
Proof. unfold fexp, SpecFloat.emin, prec, emax. lia. Qed.

Lemma round_nearest_even_bounds (m : Z) (l : location) :
  m <= round_nearest_even m l <= m + 1.
Proof. destruct l as [|[]]; cbn [round_nearest_even]; try lia. destruct (Z.even m); lia. Qed.

(** Rounding a non-negative number below one never gives more than one. *)
Lemma binary_round_aux_below_one (m e : Z) (l : location) :
  0 <= m -> e <= -53 -> m < 2 ^ (- e) ->
  SFleb (binary_round_aux prec emax false m e l) one = true.
Proof.
  intros Hm He Hlt. unfold binary_round_aux.
  pose proof (shr_fexp_cases m e l Hm) as Hc. cbv zeta in Hc.
  destruct (shr_fexp prec emax m e l) as [r1 e1]. cbn [fst snd] in Hc.
  assert (H1 : e1 <= -53 /\ 0 <= shr_m r1 < 2 ^ (- e1)).
  { destruct Hc as [(Hn & -> & ->) | (Hn & -> & ->)]; [| lia].
    set (n := fexp prec emax (Zdigits2 m + e) - e) in *.
    assert (Hd : Zdigits2 m <= - e) by (apply Zdigits2_le; lia).
    assert (Hf : fexp prec emax (Zdigits2 m + e) <= -53) by (apply fexp_le; lia).
    assert (Hp : 0 < 2 ^ n) by (apply Z.pow_pos_nonneg; lia).
    split; [lia |]. split; [apply Z.div_pos; lia |].
    apply Z.div_lt_upper_bound; [lia |].
    rewrite <- Z.pow_add_r by lia.
    replace (n + - (e + n)) with (- e) by lia. assumption. }
  clear Hc. destruct H1 as (He1 & Hr1 & Hr1').
  pose proof (round_nearest_even_bounds (shr_m r1) (loc_of_shr_record r1)) as Hrnd.
  set (m2 := round_nearest_even (shr_m r1) (loc_of_shr_record r1)) in *.
  assert (Hm2 : 0 <= m2) by lia.
  pose proof (shr_fexp_cases m2 e1 loc_Exact Hm2) as Hc. cbv zeta in Hc.
  destruct (shr_fexp prec emax m2 e1 loc_Exact) as [r2 e2]. cbn [fst snd] in Hc.
  assert (H2 : e2 <= -52 /\ 0 <= shr_m r2 <= 2 ^ (- e2)).
  { destruct Hc as [(Hn & -> & ->) | (Hn & -> & ->)]; [| lia].
    set (n := fexp prec emax (Zdigits2 m2 + e1) - e1) in *.
    assert (Hd : Zdigits2 m2 <= - e1 + 1).
    { apply Zdigits2_le; [lia | lia |].
      rewrite Z.pow_add_r, Z.pow_1_r by lia. lia. }
    assert (Hf : fexp prec emax (Zdigits2 m2 + e1) <= -52) by (apply fexp_le; lia).
    assert (Hp : 0 < 2 ^ n) by (apply Z.pow_pos_nonneg; lia).
    split; [lia |]. split; [apply Z.div_pos; lia |].
    apply Z.div_le_upper_bound; [lia |].
    rewrite <- Z.pow_add_r by lia.
    replace (n + - (e1 + n)) with (- e1) by lia. lia. }
  clear Hc. destruct H2 as (He2 & Hr2 & Hr2').
  destruct (shr_m r2) as [| q | q]; [reflexivity | | lia].
  replace (e2 <=? emax - prec) with true
    by (symmetry; apply Z.leb_le; unfold emax, prec; lia).
  unfold SFleb, one. cbn [SFcompare].
  destruct (Z.compare_spec e2 (-52)) as [-> | Hlt2 | Hgt2]; [| reflexivity | lia].
  change (2 ^ (- -52)) with 4503599627370496 in Hr2'.
  rewrite Pos.compare_cont_spec. cbn [Pos.switch_Eq].
  destruct (Pos.compare_spec q 4503599627370496) as [_ | _ | Hgt]; [reflexivity | reflexivity |].
  exfalso. lia.
Qed.

Lemma iter_xO (m d : positive) : Zpos (Pos.iter xO m d) = Zpos m * 2 ^ Zpos d.
Proof.
  induction d as [| d IH] using Pos.peano_ind.
  - cbn [Pos.iter]. rewrite Z.pow_1_r. lia.
  - rewrite Pos.iter_succ, Pos2Z.inj_xO, IH, Pos2Z.inj_succ, Z.pow_succ_r by lia. lia.
Qed.

Lemma shl_align_spec (mx : positive) (ex ex' : Z) :
  snd (shl_align mx ex ex') = Z.min ex ex' /\
  Zpos (fst (shl_align mx ex ex')) = Zpos mx * 2 ^ (ex - Z.min ex ex').
Proof.
  unfold shl_align. destruct (ex' - ex) as [| d | d] eqn:Hd; cbn [fst snd].
  - replace (Z.min ex ex') with ex by lia. rewrite Z.sub_diag. cbn. lia.
  - replace (Z.min ex ex') with ex by lia. rewrite Z.sub_diag. cbn. lia.
  - replace (Z.min ex ex') with ex' by lia. rewrite iter_xO.
    replace (ex - ex') with (Zpos d) by lia. split; reflexivity.
Qed.

Lemma binary_round_below_one (m : positive) (e : Z) :
  Zpos m < 2 ^ (- e) -> SFleb (binary_round prec emax false m e) one = true.
Proof.
  intros Hlt. unfold binary_round.
  assert (He : e < 0).
  { destruct (Z_lt_ge_dec e 0) as [| Hge]; [assumption | exfalso].
    destruct e as [| p | p]; [cbn in Hlt; lia | | lia].
    rewrite Z.pow_neg_r in Hlt by lia. lia. }
  assert (Hd : Zdigits2 (Zpos m) <= - e) by (apply Zdigits2_le; lia).
  cbn [Zdigits2] in Hd.
  set (f := fexp prec emax (Zpos (digits2_pos m) + e)).
  assert (Hf : f <= -53) by (apply fexp_le; lia).
  destruct (shl_align_spec m e f) as [Hs Hm].
  destruct (shl_align m e f) as [mz ez]. cbn [fst snd] in Hs, Hm.
  apply binary_round_aux_below_one; [lia | lia |].
  rewrite Hm, Hs.
  replace (- Z.min e f) with ((e - Z.min e f) + - e) by lia.
  rewrite Z.pow_add_r by lia.
  assert (0 < 2 ^ (e - Z.min e f)) by (apply Z.pow_pos_nonneg; lia).
  nia.
Qed.

(** *** Signs of rounded results *)

Lemma binary_round_aux_sign (s : bool) (m e : Z) (l : location) :
  has_sign s (binary_round_aux prec emax s m e l).
Proof.
  unfold binary_round_aux.
  destruct (shr_fexp prec emax m e l) as [r1 e1].
  destruct (shr_fexp prec emax _ e1 loc_Exact) as [r2 e2].
  destruct (shr_m r2); [reflexivity | | exact I].
  destruct (e2 <=? emax - prec); reflexivity.
Qed.

Lemma binary_round_sign (s : bool) (m : positive) (e : Z) :
  has_sign s (binary_round prec emax s m e).
Proof.
  unfold binary_round. destruct (shl_align m e _) as [mz ez].
  apply binary_round_aux_sign.
Qed.

Lemma binary_normalize_nonneg (m e : Z) :
  0 <= m -> has_sign false (binary_normalize prec emax m e false).
Proof.
  intros Hm. destruct m as [| p | p]; cbn [binary_normalize]; [reflexivity | | lia].
  apply binary_round_sign.
Qed.

Lemma SFadd_nonneg (x y : spec_float) :
  has_sign false x -> has_sign false y -> has_sign false (SFadd prec emax x y).
Proof.
  destruct x as [sx | sx | | sx mx ex], y as [sy | sy | | sy my ey];
    cbn [has_sign SFadd]; intros Hx Hy; subst; try reflexivity; try exact I.
  cbn [cond_Zopp]. apply binary_normalize_nonneg. lia.
Qed.

Lemma SFmul_nonneg (x y : spec_float) :
  has_sign false x -> has_sign false y -> has_sign false (SFmul prec emax x y).
Proof.
  destruct x as [sx | sx | | sx mx ex], y as [sy | sy | | sy my ey];
    cbn [has_sign SFmul]; intros Hx Hy; subst; try reflexivity; try exact I.
  apply (binary_round_aux_sign false).
Qed.

Lemma SFdiv_nonneg (x y : spec_float) :
  has_sign false x -> has_sign false y -> has_sign false (SFdiv prec emax x y).
Proof.
  destruct x as [sx | sx | | sx mx ex], y as [sy | sy | | sy my ey];
    cbn [has_sign SFdiv]; intros Hx Hy; subst; try reflexivity; try exact I.
  destruct (SFdiv_core_binary prec emax (Zpos mx) ex (Zpos my) ey) as [[mz ez] lz].
  apply (binary_round_aux_sign false).
Qed.

(** [1 - p] for a non-negative [p] is at most one whenever it is positive
    (the other results are zeros, negative numbers and NaN). *)
Lemma SFsub_one_le (p : spec_float) :
  has_sign false p ->
  SFltb (S754_zero false) (SFsub prec emax one p) = true ->
  SFleb (SFsub prec emax one p) one = true.
Proof.
  destruct p as [sp | sp | | sp mp ep]; cbn [has_sign]; intros Hs; subst;
    try (cbn; discriminate); try (intros _; reflexivity).
  unfold one. cbn [SFsub cond_Zopp].
  set (ez := Z.min (-52) ep).
  assert (Hez : ez <= -52) by (unfold ez; lia).
  destruct (shl_align_spec 4503599627370496 (-52) ez) as [_ HA].
  replace (Z.min (-52) ez) with ez in HA by lia.
  destruct (shl_align 4503599627370496 (-52) ez) as [A eA].
  destruct (shl_align mp ep ez) as [B eB].
  cbn [fst] in HA |- *.
  destruct (Zpos A - Zpos B) as [| M | M] eqn:HM; cbn [binary_normalize].
  - cbn. discriminate.
  - intros _. apply binary_round_below_one.
    assert (HA' : Zpos A = 2 ^ (- ez)).
    { rewrite HA. change (Zpos 4503599627370496) with (2 ^ 52).
      rewrite <- Z.pow_add_r by lia. f_equal. lia. }
    lia.
  - pose proof (binary_round_sign true M ez) as Hsg.
    destruct (binary_round prec emax true M ez) as [s | s | | s m e];
      cbn [has_sign] in Hsg; subst; cbn; discriminate.
Qed.

End SFFacts.

(** ** Facts about Python floats *)

Module PyFloatFacts.
Import PyFloat.
Local Open Scope float_scope.

Lemma nonneg_add (a b : float) : nonneg a -> nonneg b -> nonneg (a + b).
Proof. unfold nonneg. rewrite FloatAxioms.add_spec. apply SFFacts.SFadd_nonneg. Qed.

Lemma nonneg_mul (a b : float) : nonneg a -> nonneg b -> nonneg (a * b).
Proof. unfold nonneg. rewrite FloatAxioms.mul_spec. apply SFFacts.SFmul_nonneg. Qed.

Lemma nonneg_div (a b : float) : nonneg a -> nonneg b -> nonneg (a / b).
Proof. unfold nonneg. rewrite FloatAxioms.div_spec. apply SFFacts.SFdiv_nonneg. Qed.

Lemma nonneg_of_count (n : nat) : nonneg (of_count n).
Proof.
  unfold nonneg, of_count. rewrite of_uint63_spec.
  apply SFFacts.binary_normalize_nonneg. apply to_Z_bounded.
Qed.

Lemma nonneg_min2 (a b : float) : nonneg a -> nonneg b -> nonneg (min2 a b).
Proof. unfold min2. destruct (b <? a); auto. Qed.

Lemma nonneg_fold_max (l : list float) :
  forall x, nonneg x -> Forall nonneg l ->
  nonneg (fold_left (fun acc y => if acc <? y then y else acc) l x).
Proof.
  induction l as [| y l IH]; intros x Hx Hl; [exact Hx |].
  inversion Hl; subst. cbn [fold_left]. apply IH; [| assumption].
  destruct (x <? y); assumption.
Qed.

Lemma nonneg_series_max (l : list float) : Forall nonneg l -> nonneg (series_max l).
Proof.
  intros Hl. unfold series_max.
  assert (Hf : Forall nonneg (List.filter (fun x => negb (is_nan x)) l)).
  { apply List.Forall_forall. intros x Hx. apply List.filter_In in Hx.
    rewrite List.Forall_forall in Hl. apply Hl, Hx. }
  destruct (List.filter _ l) as [| x t]; [exact I |].
  inversion Hf; subst. apply nonneg_fold_max; assumption.
Qed.

Lemma ltb_leb (a b : float) : (a <? b) = true -> (a <=? b) = true.
Proof.
  rewrite FloatAxioms.ltb_spec, FloatAxioms.leb_spec. unfold SFltb, SFleb.
  destruct (SFcompare _ _) as [[]|]; congruence.
Qed.


Lemma one_minus_le_one (p : float) :
  nonneg p -> (0 <? 1 - p) = true -> (1 - p <=? 1) = true.
Proof.
  unfold nonneg. rewrite FloatAxioms.ltb_spec, FloatAxioms.leb_spec, FloatAxioms.sub_spec. apply SFFacts.SFsub_one_le.
Qed.

(** The clamp [max(0.0, 1.0 - p)] of a non-negative penalty lies in [0, 1]. *)
Lemma clamp_bounds (p : float) :
  nonneg p ->
  (0 <=? max2 0 (1 - p)) = true /\ (max2 0 (1 - p) <=? 1) = true.
Proof.
  intros Hp. unfold max2. destruct (0 <? 1 - p) eqn:Hlt.
  - split; [apply ltb_leb, Hlt | apply one_minus_le_one; assumption].
  - split; reflexivity.
Qed.

(** Nothing is below or equal to NaN. *)
Lemma ge_nan_l (t : float) : (t <=? nan) = false.
Proof.
  rewrite FloatAxioms.leb_spec. change (Prim2SF nan) with S754_nan.
  unfold SFleb. destruct (Prim2SF t); reflexivity.
Qed.


End PyFloatFacts.

(** ** Facts about [str.lower] and [in] *)

Module PyStrFacts.
Import PyStr.
Local Open Scope nat_scope.

Lemma lower_ascii_i (a : ascii) :
  lower_ascii a = "i"%char <-> a = "i"%char \/ a = "I"%char.
Proof.
  destruct a as [[] [] [] [] [] [] [] []]; vm_compute;
    split; intros H; try discriminate; try (destruct H; discriminate);
    first [reflexivity | left; reflexivity | right; reflexivity].
Qed.

Lemma lower_ascii_d (a : ascii) :
  lower_ascii a = "d"%char <-> a = "d"%char \/ a = "D"%char.
Proof.
  destruct a as [[] [] [] [] [] [] [] []]; vm_compute;
    split; intros H; try discriminate; try (destruct H; discriminate);
    first [reflexivity | left; reflexivity | right; reflexivity].
Qed.

(** ['id' in s.lower()]: somewhere in [s] an [i] or [I] is followed by a
    [d] or [D]. *)
Lemma contains_id_lower (s : string) :
  contains "id" (lower s) = true <->
  exists pre a b post,
    s = String.append pre (String a (String b post)) /\
    (a = "i"%char \/ a = "I"%char) /\ (b = "d"%char \/ b = "D"%char).
Proof.
  induction s as [| c t IH].
  - cbn. split; [discriminate |].
    intros (pre & a & b & post & H & _). destruct pre; discriminate.
  - cbn [lower contains]. rewrite orb_true_iff, IH. split.
    + intros [Hs | (pre & a & b & post & -> & Ha & Hb)].
      * cbn [starts_with] in Hs. apply andb_true_iff in Hs as [Hc Ht].
        apply bool_decide_eq_true_1 in Hc.
        destruct t as [| b post]; cbn [lower starts_with] in Ht; [discriminate |].
        apply andb_true_iff in Ht as [Hb _]. apply bool_decide_eq_true_1 in Hb.
        exists EmptyString, c, b, post. split; [reflexivity |].
        split; [apply lower_ascii_i | apply lower_ascii_d]; congruence.
      * exists (String c pre), a, b, post. split; [reflexivity | split; assumption].
    + intros (pre & a & b & post & H & Ha & Hb).
      apply lower_ascii_i in Ha. apply lower_ascii_d in Hb.
      destruct pre as [| c' pre]; cbn [String.append] in H; injection H as -> ->.
      * left. cbn [lower starts_with]. rewrite Ha, Hb.
        rewrite !bool_decide_eq_true_2 by reflexivity. reflexivity.
      * right. exists pre, a, b, post.
        split; [reflexivity | split; [apply lower_ascii_i | apply lower_ascii_d]; assumption].
Qed.

End PyStrFacts.

(** ** Actions that only inspect the state *)

Section Quiet.
Context {S : Type}.

Lemma quiet_ret {A : Type} (a : A) : quiet (ret (S := S) a).
Proof. intros st. split; [reflexivity | discriminate]. Qed.

Lemma quiet_reads {A : Type} (f : S -> A) : quiet (reads f).
Proof. intros st. split; [reflexivity | discriminate]. Qed.

Lemma quiet_raise {A : Type} (e : exn) : e <> InvalidConfiguration -> quiet (raise (S := S) (A := A) e).
Proof. intros He st. split; [reflexivity | cbn; congruence]. Qed.

Lemma quiet_lift {A : Type} (r : result A) : r <> Raise InvalidConfiguration -> quiet (lift (S := S) r).
Proof. intros Hr st. split; [reflexivity | exact Hr]. Qed.

Lemma quiet_bind {A B : Type} (m : py S A) (k : A -> py S B) :
  quiet m -> (forall a, quiet (k a)) -> quiet (bind m k).
Proof.
  intros Hm Hk st. unfold bind. destruct (Hm st) as [Hst Hne].
  destruct (m st) as [st' [a | e]]; cbn [fst snd] in *; subst st'.
  - apply Hk.
  - split; [reflexivity | cbn; congruence].
Qed.

Lemma quiet_for_each {A B : Type} (l : list A) (body : A -> B -> py S B) :
  (forall x acc, quiet (body x acc)) -> forall acc, quiet (for_each l body acc).
Proof.
  intros Hbody. induction l as [| x t IH]; intros acc; cbn [for_each].
  - apply quiet_ret.
  - apply quiet_bind; [apply Hbody | exact IH].
Qed.

(** Running a bind whose first action is quiet. *)
Lemma bind_quiet_run {A B : Type} (m : py S A) (k : A -> py S B) (st : S) :
  quiet m ->
  bind m k st = match snd (m st) with
                | Ok a => k a st
                | Raise e => (st, Raise e)
                end.
Proof.
  intros Hm. unfold bind. destruct (Hm st) as [Hst _].
  destruct (m st) as [st' [a | e]]; cbn [fst snd] in *; subst st'; reflexivity.
Qed.

(** A loop whose body, at each element, either raises [e] or appends the
    list [g x]: the loop raises [e] when some element does, and otherwise
    appends all the lists in order. *)
Lemma for_each_run {A B : Type} (bad : A -> bool) (g : A -> list B) (e : exn)
    (body : A -> list B -> py S (list B)) (st : S) (l : list A) :
  (forall x acc, In x l ->
     body x acc st = if bad x then (st, Raise e) else (st, Ok (acc ++ g x))) ->
  forall acc,
    for_each l body acc st =
    if existsb bad l then (st, Raise e) else (st, Ok (acc ++ concat (map g l))).
Proof.
  induction l as [| x t IH]; intros Hbody acc; cbn [for_each existsb map concat].
  - rewrite app_nil_r. reflexivity.
  - unfold bind. rewrite (Hbody x acc) by apply in_eq.
    destruct (bad x); cbn [orb]; [reflexivity |].
    rewrite IH by (intros y acc' Hy; apply Hbody, in_cons, Hy).
    rewrite <- app_assoc. reflexivity.
Qed.

End Quiet.

(** ** [duplicated] *)

Lemma duplicated_from_lookup {A : Type} `{EqDecision A} (l : list A) :
  forall (seen : list A) (i : nat),
    duplicated_from seen l !! i = Some true <->
    exists x, l !! i = Some x /\ (In x seen \/ exists j, (j < i)%nat /\ l !! j = Some x).
Proof.
  induction l as [| y l IH]; intros seen i; cbn [duplicated_from].
  - split; [intros H; destruct i; discriminate | intros (x & H & _); destruct i; discriminate].
  - destruct i as [| i]; cbn [lookup list_lookup].
    + split.
      * intros H. injection H as H. apply bool_decide_eq_true_1 in H.
        exists y. split; [reflexivity | left; apply list_elem_of_In, H].
      * intros (x & Hx & [Hin | (j & Hj & _)]); [| lia].
        injection Hx as ->. f_equal. apply bool_decide_eq_true_2, list_elem_of_In, Hin.
    + change ((duplicated_from (y :: seen) l) !! i = Some true <->
              exists x, l !! i = Some x /\
                (In x seen \/ exists j, (j < Datatypes.S i)%nat /\ (y :: l) !! j = Some x)).
      rewrite IH. split.
      * intros (x & Hx & [[-> | Hin] | (j & Hj & Hl)]); exists x; (split; [exact Hx |]).
        -- right. exists 0%nat. split; [lia | reflexivity].
        -- left. exact Hin.
        -- right. exists (Datatypes.S j). split; [lia | exact Hl].
      * intros (x & Hx & [Hin | (j & Hj & Hl)]); exists x; (split; [exact Hx |]).
        -- left. right. exact Hin.
        -- destruct j as [| j]; cbn in Hl.
           ++ injection Hl as ->. left. left. reflexivity.
           ++ right. exists j. split; [lia | exact Hl].
Qed.

(** An entry is marked exactly when an equal entry stands before it. *)
Lemma duplicated_lookup {A : Type} `{EqDecision A} (l : list A) (i : nat) :
  duplicated l !! i = Some true <->
  exists x j, (j < i)%nat /\ l !! j = Some x /\ l !! i = Some x.
Proof.
  unfold duplicated. rewrite duplicated_from_lookup. split.
  - intros (x & Hx & [[] | (j & Hj & Hl)]). exists x, j. auto.
  - intros (x & j & Hj & Hl & Hx). exists x. split; [exact Hx | right; eauto].
Qed.

Lemma first_occurrences_from_spec {A : Type} `{EqDecision A} (l : list A) :
  forall seen : list A,
    NoDup (first_occurrences_from seen l) /\
    (forall x, x ∈ first_occurrences_from seen l <-> x ∈ l /\ x ∉ seen).
Proof.
  induction l as [| y l IH]; intros seen; cbn [first_occurrences_from].
  - split; [constructor |]. intros x. rewrite elem_of_nil. tauto.
  - destruct (IH (y :: seen)) as [Hnd Hmem]. case_bool_decide as Hy.
    + split; [exact Hnd |]. intros x. rewrite Hmem, !elem_of_cons. split.
      * intros [Hx Hn]. split; [right; exact Hx | tauto].
      * intros [[-> | Hx] Hn]; [contradiction |]. split; [exact Hx |].
        intros [-> | Hs]; contradiction.
    + split.
      * constructor; [| exact Hnd]. rewrite Hmem, elem_of_cons. tauto.
      * intros x. rewrite !elem_of_cons, Hmem, elem_of_cons. split.
        -- intros [-> | [Hx Hn]]; [tauto |]. split; [right; exact Hx | tauto].
        -- intros [[-> | Hx] Hn]; [left; reflexivity |].
           destruct (decide (x = y)) as [-> | Hne]; [left; reflexivity | right].
           split; [exact Hx | tauto].
Qed.

Lemma duplicated_from_count {A : Type} `{EqDecision A} (l : list A) :
  forall seen : list A,
    (sum_true (duplicated_from seen l) + length (first_occurrences_from seen l))%nat
    = length l.
Proof.
  unfold sum_true.
  induction l as [| y l IH]; intros seen;
    cbn [duplicated_from first_occurrences_from List.filter length]; [reflexivity |].
  specialize (IH (y :: seen)).
  destruct (bool_decide (y ∈ seen)); cbn [length]; lia.
Qed.

(** The marked entries and the distinct values add up to the length. *)
Lemma duplicated_count {A : Type} `{EqDecision A} (l : list A) :
  (sum_true (duplicated l) + length (remove_dups l))%nat = length l.
Proof.
  unfold duplicated. rewrite <- (duplicated_from_count l []). f_equal.
  apply Permutation_length, NoDup_Permutation.
  - apply NoDup_remove_dups.
  - apply first_occurrences_from_spec.
  - intros x. rewrite elem_of_remove_dups.
    rewrite (proj2 (first_occurrences_from_spec l [])), elem_of_nil. tauto.
Qed.

Lemma duplicated_from_none {A : Type} `{EqDecision A} (l : list A) :
  forall seen : list A,
    sum_true (duplicated_from seen l) = 0%nat <->
    List.NoDup l /\ (forall x, In x l -> ~ In x seen).
Proof.
  unfold sum_true.
  induction l as [| y l IH]; intros seen; cbn [duplicated_from List.filter].
  - cbn. split; [intros _; split; [constructor | intros x []] | reflexivity].
  - specialize (IH (y :: seen)). case_bool_decide as Hy; cbn [length].
    + split; [discriminate |]. intros [_ Hall]. exfalso.
      apply (Hall y); [left; reflexivity | apply list_elem_of_In, Hy].
    + rewrite IH. rewrite list_elem_of_In in Hy. split.
      * intros [Hnd Hall]. split.
        -- constructor; [| exact Hnd]. intros Hin. apply (Hall y Hin). left. reflexivity.
        -- intros x [<- | Hx]; [exact Hy |]. intros Hs. apply (Hall x Hx). right. exact Hs.
      * intros [Hnd Hall]. inversion Hnd as [| ? ? Hnotin Hnd']; subst. split; [exact Hnd' |].
        intros x Hx [<- | Hs]; [contradiction |]. apply (Hall x); [right; exact Hx | exact Hs].
Qed.

(** No entry is marked exactly when the entries are pairwise different. *)
Lemma duplicated_none {A : Type} `{EqDecision A} (l : list A) :
  sum_true (duplicated l) = 0%nat <-> List.NoDup l.
Proof.
  unfold duplicated. rewrite duplicated_from_none. split; [tauto |].
  intros Hnd. split; [exact Hnd | intros x _ []].
Qed.

(** ** The function on every frame *)

Section PandasFacts.

Context {scalar : Type} `{EqDecision scalar} (is_zero : scalar -> bool).

(** *** Labels and [df[label]] *)

Lemma with_label_absent (label : string) (cols : list (Column scalar)) :
  ~ In label (map col_name cols) -> with_label label cols = [].
Proof.
  induction cols as [| c cols IH]; intros Hn; [reflexivity |].
  cbn [with_label List.filter]. fold (with_label label cols).
  cbn [map] in Hn. case_bool_decide as Hc.
  - exfalso. apply Hn. left. exact Hc.
  - apply IH. intros Hin. apply Hn. right. exact Hin.
Qed.

Lemma with_label_present (label : string) (cols : list (Column scalar)) :
  In label (map col_name cols) -> with_label label cols <> [].
Proof.
  intros Hin. apply in_map_iff in Hin as (c & Hc & Hin).
  assert (Hf : In c (with_label label cols))
    by (apply filter_In; split; [exact Hin | apply bool_decide_eq_true_2, Hc]).
  destruct (with_label label cols); [destruct Hf | discriminate].
Qed.

Lemma with_label_unique (cols : list (Column scalar)) :
  List.NoDup (map col_name cols) ->
  forall c, In c cols -> with_label (col_name c) cols = [c].
Proof.
  induction cols as [| c0 cols IH]; intros Hnd c Hin; [destruct Hin |].
  cbn [map] in Hnd. inversion Hnd as [| ? ? Hnotin Hnd']; subst.
  cbn [with_label List.filter]. fold (with_label (col_name c) cols).
  destruct Hin as [-> | Hin].
  - rewrite bool_decide_eq_true_2 by reflexivity.
    rewrite with_label_absent by exact Hnotin. reflexivity.
  - rewrite bool_decide_eq_false_2.
    + apply IH; assumption.
    + intros Heq. apply Hnotin. rewrite Heq. apply in_map, Hin.
Qed.

Lemma labels_unique_NoDup (cols : list (Column scalar)) :
  (forall label, In label (map col_name cols) ->
     exists c, with_label label cols = [c]) ->
  List.NoDup (map col_name cols).
Proof.
  induction cols as [| c0 cols IH]; intros Hall; cbn [map]; [constructor |].
  assert (Hnotin : ~ In (col_name c0) (map col_name cols)).
  { intros Hin. destruct (Hall (col_name c0)) as [c Hc]; [left; reflexivity |].
    cbn [with_label List.filter] in Hc. fold (with_label (col_name c0) cols) in Hc.
    rewrite bool_decide_eq_true_2 in Hc by reflexivity.
    apply with_label_present in Hin.
    destruct (with_label (col_name c0) cols); [congruence | discriminate]. }
  constructor; [exact Hnotin |].
  apply IH. intros label Hin.
  destruct (Hall label) as [c Hc]; [right; exact Hin |].
  cbn [with_label List.filter] in Hc. fold (with_label label cols) in Hc.
  rewrite bool_decide_eq_false_2 in Hc by (intros Heq; apply Hnotin; rewrite Heq; exact Hin).
  exists c. exact Hc.
Qed.

Lemma getitem_unique (df : DataFrame scalar) (c : Column scalar) :
  List.NoDup (df_columns df) -> In c (df_cols df) ->
  getitem (col_name c) df = Ok (ItemSeries (col_values c)).
Proof.
  intros Hnd Hin. unfold getitem. fold (with_label (col_name c) (df_cols df)).
  rewrite (with_label_unique _ Hnd c Hin). reflexivity.
Qed.

Lemma getitem_present (df : DataFrame scalar) (label : string) :
  In label (df_columns df) -> exists it, getitem label df = Ok it.
Proof.
  intros Hin. apply with_label_present in Hin. unfold getitem.
  fold (with_label label (df_cols df)).
  destruct (with_label label (df_cols df)) as [| c [| c' cs]]; [congruence | eauto | eauto].
Qed.

Lemma label_unique_forallb (df : DataFrame scalar) :
  forallb (label_unique df) (df_columns df) = true <-> List.NoDup (df_columns df).
Proof.
  split.
  - intros Hall. apply labels_unique_NoDup. intros label Hin.
    rewrite forallb_forall in Hall. specialize (Hall label Hin).
    unfold label_unique in Hall.
    destruct (with_label label (df_cols df)) as [| c [| c' cs]]; try discriminate. eauto.
  - intros Hnd. apply forallb_forall. intros label Hin.
    apply in_map_iff in Hin as (c & <- & Hin).
    unfold label_unique. rewrite (with_label_unique _ Hnd c Hin). reflexivity.
Qed.

(** *** The function only inspects the frame *)

Lemma quiet_df_getitem (label : string) : quiet (df_getitem (scalar := scalar) label).
Proof.
  intros df. unfold df_getitem, getitem. split; [reflexivity |]. cbn [snd].
  destruct (List.filter _ _) as [| c [| c' cs]]; discriminate.
Qed.

Lemma series_condition_error_valid (threshold : pyobj) :
  series_condition_error threshold <> InvalidConfiguration.
Proof. unfold series_condition_error. destruct (is_numeric threshold); discriminate. Qed.

Lemma int_gt_valid (n : nat) (o : pyobj) : int_gt n o <> Raise InvalidConfiguration.
Proof. destruct o; discriminate. Qed.

Lemma float_gt_valid (x : float) (o : pyobj) : float_gt x o <> Raise InvalidConfiguration.
Proof. destruct o; discriminate. Qed.

Ltac quiet_step :=
  first
    [ apply quiet_ret
    | apply quiet_reads
    | apply quiet_df_getitem
    | apply quiet_raise; first [discriminate | apply series_condition_error_valid]
    | apply quiet_lift; first [apply int_gt_valid | apply float_gt_valid]
    | apply quiet_for_each; intros ? ?
    | apply quiet_bind; [| intros ?]
    | match goal with
      | |- quiet (match ?x with _ => _ end) => destruct x
      end ].

Lemma quiet_constant_columns_loop : quiet (constant_columns_loop (scalar := scalar)).
Proof. unfold constant_columns_loop. repeat quiet_step. Qed.

Lemma quiet_high_cardinality_loop (threshold : pyobj) :
  quiet (high_cardinality_loop (scalar := scalar) threshold).
Proof. unfold high_cardinality_loop. repeat quiet_step. Qed.

Lemma quiet_suspicious_id_loop : quiet (suspicious_id_loop (scalar := scalar)).
Proof. unfold suspicious_id_loop. repeat quiet_step. Qed.

Lemma quiet_many_zero_loop (threshold : pyobj) : quiet (many_zero_loop is_zero threshold).
Proof. unfold many_zero_loop. repeat quiet_step. Qed.

Lemma quiet_compute_quality_flags (kwargs : kwargs_t) :
  quiet (compute_quality_flags is_zero kwargs).
Proof.
  unfold compute_quality_flags.
  repeat first
    [ apply quiet_constant_columns_loop
    | apply quiet_high_cardinality_loop
    | apply quiet_suspicious_id_loop
    | apply quiet_many_zero_loop
    | quiet_step ].
Qed.

(** *** What the loops compute *)

(** A loop over the labels of some columns of a frame whose labels are
    distinct, when the body either fails at every column or appends the
    list [g c] at column [c]. *)
Lemma for_each_columns {B : Type} (df : DataFrame scalar) (cs : list (Column scalar))
    (body : string -> list B -> py (DataFrame scalar) (list B))
    (fails : bool) (e : exn) (g : (Column scalar) -> list B) :
  (forall c acc, In c cs ->
     body (col_name c) acc df = if fails then (df, Raise e) else (df, Ok (acc ++ g c))) ->
  forall acc,
    for_each (map col_name cs) body acc df =
    if fails && negb (length cs =? 0)%nat
    then (df, Raise e)
    else (df, Ok (acc ++ concat (map g cs))).
Proof.
  induction cs as [| c cs IH]; intros Hbody acc; cbn [map for_each concat length].
  - rewrite andb_false_r, app_nil_r. reflexivity.
  - unfold bind. rewrite (Hbody c acc) by apply in_eq.
    destruct fails; cbn; [reflexivity |].
    rewrite IH by (intros c' acc' Hc'; apply Hbody, in_cons, Hc').
    cbn. rewrite <- app_assoc. reflexivity.
Qed.

Lemma filter_labels (q : string -> bool) (cols : list (Column scalar)) :
  List.filter q (map col_name cols) =
  map col_name (List.filter (fun c => q (col_name c)) cols).
Proof.
  induction cols as [| c cols IH]; [reflexivity |].
  cbn [map List.filter]. destruct (q (col_name c)); cbn [map]; rewrite IH; reflexivity.
Qed.

Lemma constant_columns_loop_NoDup (df : DataFrame scalar) (cc : list string) :
  snd (constant_columns_loop df) = Ok cc -> List.NoDup (df_columns df).
Proof.
  unfold constant_columns_loop. rewrite bind_quiet_run by apply quiet_reads.
  cbn [reads snd]. intros Hrun.
  set (body := fun (col : string) (acc : list string) => bind (df_getitem col) _) in Hrun.
  rewrite (for_each_run (fun label => negb (label_unique df label))
             (fun label => match with_label label (df_cols df) with
                           | [c] => constant_of c
                           | _ => []
                           end) ValueError body) in Hrun.
  - apply label_unique_forallb.
    destruct (existsb _ _) eqn:Hex; [discriminate |].
    apply forallb_forall. intros label Hin.
    destruct (label_unique df label) eqn:Hu; [reflexivity | exfalso].
    assert (existsb (fun label => negb (label_unique df label)) (df_columns df) = true)
      by (apply existsb_exists; exists label; rewrite Hu; split; [exact Hin | reflexivity]).
    congruence.
  - intros label acc Hin. subst body. cbv beta. unfold bind, df_getitem, getitem, label_unique.
    fold (with_label label (df_cols df)).
    pose proof (with_label_present _ _ Hin) as Hne.
    destruct (with_label label (df_cols df)) as [| c [| c' cs]] eqn:Hwl; [congruence | |].
    + cbn. unfold ret, constant_of.
      assert (Hc : col_name c = label).
      { assert (Hin' : In c (with_label label (df_cols df))) by (rewrite Hwl; left; reflexivity).
        apply filter_In in Hin' as [_ Hb]. apply bool_decide_eq_true_1 in Hb. exact Hb. }
      rewrite Hc. destruct (_ =? 1)%nat; [reflexivity | rewrite app_nil_r; reflexivity].
    + reflexivity.
Qed.

Lemma constant_columns_loop_run (df : DataFrame scalar) :
  List.NoDup (df_columns df) ->
  constant_columns_loop df = (df, Ok (concat (map constant_of (df_cols df)))).
Proof.
  intros Hnd. unfold constant_columns_loop. rewrite bind_quiet_run by apply quiet_reads.
  cbn [reads snd]. unfold df_columns at 1.
  rewrite (for_each_columns df (df_cols df) _ false ValueError constant_of); [reflexivity |].
  intros c acc Hin. unfold bind, df_getitem. rewrite (getitem_unique df c Hnd Hin).
  unfold ret, constant_of.
  destruct (_ =? 1)%nat; [reflexivity | rewrite app_nil_r; reflexivity].
Qed.

Lemma high_cardinality_loop_run (threshold : pyobj) (df : DataFrame scalar) :
  List.NoDup (df_columns df) ->
  high_cardinality_loop threshold df =
  if negb (is_numeric threshold) && negb (length (categorical_cols df) =? 0)%nat
  then (df, Raise TypeError)
  else (df, Ok (concat (map (high_cardinality_of threshold) (categorical_cols df)))).
Proof.
  intros Hnd. unfold high_cardinality_loop. rewrite bind_quiet_run by apply quiet_reads.
  cbn [reads snd]. unfold df_columns, select_dtypes. cbn [df_cols].
  fold (categorical_cols df).
  refine (for_each_columns df (categorical_cols df) _ (negb (is_numeric threshold))
          TypeError (high_cardinality_of threshold) _ []).
  intros c acc Hin. apply filter_In in Hin as [Hin _].
  unfold bind, df_getitem. rewrite (getitem_unique df c Hnd Hin).
  unfold lift, ret, high_cardinality_of.
  destruct threshold as [t | f | s |]; cbn [int_gt is_numeric negb]; try reflexivity.
  - destruct (_ <? _); [reflexivity | rewrite app_nil_r; reflexivity].
  - destruct (int_gt_float _ _); [reflexivity | rewrite app_nil_r; reflexivity].
Qed.

Lemma suspicious_id_loop_run (df : DataFrame scalar) :
  List.NoDup (df_columns df) ->
  suspicious_id_loop df =
  (df, Ok (concat (map suspicious_of (List.filter is_id_column (df_cols df))))).
Proof.
  intros Hnd. unfold suspicious_id_loop. rewrite bind_quiet_run by apply quiet_reads.
  cbn [reads snd]. unfold df_columns at 1. rewrite filter_labels.
  fold (is_id_column (scalar := scalar)).
  rewrite (for_each_columns df _ _ false ValueError suspicious_of); [reflexivity |].
  intros c acc Hin. apply filter_In in Hin as [Hin _].
  unfold bind, df_getitem. rewrite (getitem_unique df c Hnd Hin).
  unfold ret, suspicious_of, duplicate_ids_of.
  destruct (0 <? _)%nat; [reflexivity | rewrite app_nil_r; reflexivity].
Qed.

(** The identifier check raises nothing, whatever the frame. *)
Lemma suspicious_id_loop_total (df : DataFrame scalar) :
  exists l, suspicious_id_loop df = (df, Ok l).
Proof.
  unfold suspicious_id_loop. rewrite bind_quiet_run by apply quiet_reads.
  cbn [reads snd].
  set (body := fun (id_col : string) (acc : list (string * nat)) => bind (df_getitem id_col) _).
  set (dups := fun label =>
         match getitem label df with
         | Ok (ItemSeries v) => sum_true (duplicated v)
         | Ok (ItemFrame sub) => sum_true (df_duplicated sub)
         | Raise _ => 0%nat
         end).
  rewrite (for_each_run (fun _ => false)
             (fun label => if (0 <? dups label)%nat then [(label, dups label)] else [])
             ValueError body).
  - destruct (existsb _ _) eqn:Hex; [| eauto].
    apply existsb_exists in Hex as (x & _ & Hx). discriminate.
  - intros label acc Hin. apply filter_In in Hin as [Hin _].
    destruct (getitem_present df label Hin) as [it Hit].
    subst body dups. cbv beta. unfold bind, df_getitem. rewrite Hit. unfold ret.
    destruct it; destruct (0 <? _)%nat; try reflexivity; rewrite app_nil_r; reflexivity.
Qed.

Lemma many_zero_loop_run (threshold : pyobj) (df : DataFrame scalar) :
  List.NoDup (df_columns df) ->
  many_zero_loop is_zero threshold df =
  if negb (is_numeric threshold) && negb (length (numeric_cols df) =? 0)%nat
  then (df, Raise TypeError)
  else (df, Ok (concat (map (many_zero_of is_zero threshold df) (numeric_cols df)))).
Proof.
  intros Hnd. unfold many_zero_loop. rewrite bind_quiet_run by apply quiet_reads.
  cbn [reads snd]. unfold df_columns, select_dtypes. cbn [df_cols].
  fold (numeric_cols df).
  refine (for_each_columns df (numeric_cols df) _ (negb (is_numeric threshold))
          TypeError (many_zero_of is_zero threshold df) _ []).
  intros c acc Hin. apply filter_In in Hin as [Hin _].
  unfold bind, df_getitem. rewrite (getitem_unique df c Hnd Hin).
  unfold reads, lift, ret, many_zero_of, zero_share_of, df_len.
  destruct threshold as [t | f | s |]; cbn [float_gt is_numeric negb]; try reflexivity.
  - destruct (PyFloat.gt _ _); [reflexivity | rewrite app_nil_r; reflexivity].
  - destruct (PyFloat.gt _ _); [reflexivity | rewrite app_nil_r; reflexivity].
Qed.

(** *** The report as a whole *)

(** The function runs its four loops in order, stops at the first one that
    raises, and otherwise returns the report described above. *)
Lemma compute_quality_flags_run (kwargs : kwargs_t) (df : DataFrame scalar) :
  match snd (constant_columns_loop df) with
  | Raise e => compute_quality_flags is_zero kwargs df = (df, Raise e)
  | Ok _ =>
      match snd (high_cardinality_loop (high_cardinality_threshold_of kwargs) df) with
      | Raise e => compute_quality_flags is_zero kwargs df = (df, Raise e)
      | Ok _ =>
          match snd (many_zero_loop is_zero (zero_threshold_of kwargs) df) with
          | Raise e => compute_quality_flags is_zero kwargs df = (df, Raise e)
          | Ok _ =>
              List.NoDup (df_columns df) /\
              exists r, compute_quality_flags is_zero kwargs df = (df, Ok r) /\ describes is_zero kwargs df r
          end
      end
  end.
Proof.
  unfold compute_quality_flags.
  fold (high_cardinality_threshold_of kwargs) (zero_threshold_of kwargs).
  do 3 (rewrite (bind_quiet_run (reads _)) by apply quiet_reads; cbn [reads snd]; cbv beta).
  rewrite (@bind_quiet_run _ _ _ constant_columns_loop _ df quiet_constant_columns_loop).
  destruct (snd (constant_columns_loop df)) as [cc | e] eqn:Hcc; [| reflexivity].
  pose proof (constant_columns_loop_NoDup df cc Hcc) as Hnd.
  rewrite (constant_columns_loop_run df Hnd) in Hcc. cbn [snd] in Hcc.
  injection Hcc as Hcc.
  rewrite (@bind_quiet_run _ _ _ (high_cardinality_loop _) _ df
             (quiet_high_cardinality_loop _)).
  destruct (snd (high_cardinality_loop _ df)) as [hc | e] eqn:Hhc; [| reflexivity].
  rewrite (@bind_quiet_run _ _ _ suspicious_id_loop _ df quiet_suspicious_id_loop).
  rewrite (suspicious_id_loop_run df Hnd). cbn [snd].
  rewrite (@bind_quiet_run _ _ _ (many_zero_loop is_zero _) _ df (quiet_many_zero_loop _)).
  destruct (snd (many_zero_loop is_zero _ df)) as [zs | e] eqn:Hzs; [| reflexivity].
  split; [exact Hnd |].
  unfold describes, penalty_sum, contributions, max_missing_share, duplicate_row_share.
  rewrite Hhc, Hzs.
  destruct (0 <? sum_true (df_duplicated df))%nat eqn:Hdup;
    destruct (0 <? length cc)%nat eqn:Hconst;
    unfold bind, reads, ret; cbn [fst snd];
    (eexists; split; [reflexivity |]);
    cbn [has_missing has_duplicate_rows has_constant_column
         has_high_cardinality_categories has_suspicious_id_duplicates
         has_many_zero_values quality_score metrics missing_shares
         duplicate_rows_count constant_columns high_cardinality_columns
         suspicious_id_columns many_zero_columns fold_left];
    rewrite ?Hdup, ?Hconst; unfold df_len, df_columns; rewrite ?length_map;
    repeat split; try reflexivity; try (symmetry; assumption).
Qed.

Lemma compute_quality_flags_inv (kwargs : kwargs_t) (df : DataFrame scalar) (r : Report) :
  snd (compute_quality_flags is_zero kwargs df) = Ok r ->
  List.NoDup (df_columns df) /\ describes is_zero kwargs df r.
Proof.
  intros Hrun. pose proof (compute_quality_flags_run kwargs df) as Hc.
  destruct (snd (constant_columns_loop df)) as [cc | e];
    [| rewrite Hc in Hrun; discriminate].
  destruct (snd (high_cardinality_loop _ df)) as [hc | e];
    [| rewrite Hc in Hrun; discriminate].
  destruct (snd (many_zero_loop is_zero _ df)) as [zs | e];
    [| rewrite Hc in Hrun; discriminate].
  destruct Hc as (Hnd & r' & Hr' & Hd). rewrite Hr' in Hrun. cbn [snd] in Hrun.
  injection Hrun as <-. split; assumption.
Qed.

(** A threshold that is never compared, or that is a number, raises
    nothing. *)
Lemma compute_quality_flags_ok (kwargs : kwargs_t) (df : DataFrame scalar) :
  List.NoDup (df_columns df) ->
  is_numeric (high_cardinality_threshold_of kwargs) = true \/ categorical_cols df = [] ->
  is_numeric (zero_threshold_of kwargs) = true \/ numeric_cols df = [] ->
  exists r, compute_quality_flags is_zero kwargs df = (df, Ok r) /\ describes is_zero kwargs df r.
Proof.
  intros Hnd H1 H2. pose proof (compute_quality_flags_run kwargs df) as Hc.
  rewrite (constant_columns_loop_run df Hnd) in Hc. cbn [snd] in Hc.
  rewrite (high_cardinality_loop_run _ df Hnd) in Hc.
  replace (negb (is_numeric (high_cardinality_threshold_of kwargs))
           && negb (length (categorical_cols df) =? 0)%nat) with false in Hc
    by (destruct H1 as [-> | ->]; [reflexivity | rewrite andb_false_r; reflexivity]).
  cbn [snd] in Hc.
  rewrite (many_zero_loop_run _ df Hnd) in Hc.
  replace (negb (is_numeric (zero_threshold_of kwargs))
           && negb (length (numeric_cols df) =? 0)%nat) with false in Hc
    by (destruct H2 as [-> | ->]; [reflexivity | rewrite andb_false_r; reflexivity]).
  cbn [snd] in Hc. apply Hc.
Qed.


(** *** Lists *)

Lemma ltb_length_nonempty {A : Type} (l : list A) :
  (0 <? length l)%nat = true <-> l <> [].
Proof.
  destruct l as [| x l]; cbn; split; intros H;
    first [congruence | discriminate | reflexivity].
Qed.

Lemma in_concat_map_if {A B : Type} (p : A -> bool) (f : A -> B) (l : list A) (y : B) :
  In y (concat (map (fun x => if p x then [f x] else []) l)) <->
  exists x, In x l /\ p x = true /\ y = f x.
Proof.
  rewrite in_concat. split.
  - intros (ys & Hys & Hy). apply in_map_iff in Hys as (x & <- & Hx).
    destruct (p x) eqn:Hp; [| destruct Hy].
    destruct Hy as [<- | []]. eauto.
  - intros (x & Hx & Hp & ->). exists [f x]. split; [| left; reflexivity].
    apply in_map_iff. exists x. rewrite Hp. split; [reflexivity | exact Hx].
Qed.

Lemma same_label_same_column (df : DataFrame scalar) (c c' : Column scalar) :
  List.NoDup (df_columns df) -> In c (df_cols df) -> In c' (df_cols df) ->
  col_name c = col_name c' -> c = c'.
Proof.
  intros Hnd Hc Hc' Heq.
  pose proof (with_label_unique _ Hnd c Hc) as H1.
  pose proof (with_label_unique _ Hnd c' Hc') as H2.
  rewrite Heq in H1. congruence.
Qed.

(** *** Series *)

Lemma series_nunique_one (v : list (cell scalar)) :
  series_nunique v = 1%nat <->
  exists x, In (Some x) v /\ forall y, In (Some y) v -> y = x.
Proof.
  unfold series_nunique.
  assert (Hmem : forall y, y ∈ remove_dups (omap id v) <-> In (Some y) v).
  { intros y. rewrite elem_of_remove_dups, list_elem_of_omap. split.
    - intros (o & Ho & Hy). cbn in Hy. subst o. apply list_elem_of_In, Ho.
    - intros Hy. exists (Some y). split; [apply list_elem_of_In, Hy | reflexivity]. }
  pose proof (NoDup_remove_dups (omap id v)) as Hnd.
  destruct (remove_dups (omap id v)) as [| a [| b t]]; cbn [length]; split.
  - discriminate.
  - intros (x & Hx & _). apply Hmem in Hx. inversion Hx.
  - intros _. exists a. split; [apply Hmem; left |].
    intros y Hy. apply Hmem in Hy. apply list_elem_of_singleton in Hy. exact Hy.
  - reflexivity.
  - discriminate.
  - intros (x & _ & Hall). exfalso.
    assert (a = x) by (apply Hall, Hmem; left).
    assert (b = x) by (apply Hall, Hmem; right; left).
    subst. inversion Hnd as [| ? ? Hnotin _]. apply Hnotin. left.
Qed.

Lemma series_nunique_all_missing (v : list (cell scalar)) :
  forallb is_missing v = true -> series_nunique v = 0%nat.
Proof.
  intros Hall. unfold series_nunique.
  replace (omap id v) with (@nil scalar); [reflexivity |].
  induction v as [| [x |] v IH]; cbn in *; [reflexivity | discriminate | apply IH, Hall].
Qed.

(** *** The penalty is never negative *)

Lemma penalty_sum_nonneg (l : list (bool * float)) :
  Forall (fun c => PyFloat.nonneg (snd c)) l -> PyFloat.nonneg (penalty_sum l).
Proof.
  unfold penalty_sum.
  assert (H0 : PyFloat.nonneg 0%float) by (vm_compute; reflexivity).
  revert H0. generalize 0%float as acc.
  induction l as [| [b x] l IH]; intros acc Hacc Hl; cbn [fold_left fst snd]; [exact Hacc |].
  inversion Hl as [| ? ? Hx Hl']; subst. cbn [snd] in Hx.
  apply IH; [| exact Hl'].
  destruct b; [apply PyFloatFacts.nonneg_add; assumption | exact Hacc].
Qed.

Lemma contributions_nonneg (kwargs : kwargs_t) (df : DataFrame scalar) (r : Report) :
  describes is_zero kwargs df r -> Forall (fun c => PyFloat.nonneg (snd c)) (contributions r df).
Proof.
  intros (_ & Hshares & _).
  unfold contributions, max_missing_share, duplicate_row_share.
  repeat (apply List.Forall_cons); cbn [snd]; try apply List.Forall_nil;
    try (vm_compute; reflexivity).
  - apply PyFloatFacts.nonneg_mul; [| vm_compute; reflexivity].
    apply PyFloatFacts.nonneg_series_max. rewrite Hshares.
    apply List.Forall_forall. intros x Hx.
    apply in_map_iff in Hx as ([c s] & <- & Hx).
    apply in_map_iff in Hx as ([c' k] & Heq & _). injection Heq as _ <-.
    cbn [snd]. apply PyFloatFacts.nonneg_div; apply PyFloatFacts.nonneg_of_count.
  - apply PyFloatFacts.nonneg_min2; [| vm_compute; reflexivity].
    apply PyFloatFacts.nonneg_mul; [| vm_compute; reflexivity].
    apply PyFloatFacts.nonneg_div; apply PyFloatFacts.nonneg_of_count.
  - apply PyFloatFacts.nonneg_div; [| apply PyFloatFacts.nonneg_of_count].
    apply PyFloatFacts.nonneg_mul; [vm_compute; reflexivity | apply PyFloatFacts.nonneg_of_count].
Qed.

Lemma compute_quality_flags_frame (kwargs : kwargs_t) (df : DataFrame scalar) :
  fst (compute_quality_flags is_zero kwargs df) = df.
Proof. apply quiet_compute_quality_flags. Qed.

(** *** Frames without rows *)





Lemma no_rows_no_values (df : DataFrame scalar) (c : Column scalar) :
  index_len df = 0%nat -> aligned df -> In c (df_cols df) -> col_values c = [].
Proof.
  intros Hlen Hal Hin. unfold aligned in Hal. rewrite List.Forall_forall in Hal.
  specialize (Hal c Hin). rewrite Hlen in Hal.
  destruct (col_values c); [reflexivity | discriminate].
Qed.

(** ** The properties of the report *)

(** C1 (as amended): whenever the function returns a report, its quality
    score is [max(0.0, 1.0 - total_penalty)], where [total_penalty]
    accumulates from [0.0], in this order, [max_missing_share * 0.3] if
    [has_missing], [min(duplicate_row_share * 0.5, 0.2)] if
    [has_duplicate_rows], [0.1 * num_constant_columns / num_total_columns]
    evaluated from left to right if [has_constant_column], [0.15] if
    [has_high_cardinality_categories], [0.2] if
    [has_suspicious_id_duplicates] and [0.1] if [has_many_zero_values];
    and the score is exactly [1.0] when no flag is set. *)
Theorem quality_score_formula (kwargs : kwargs_t) (df : DataFrame scalar) (r : Report) :
  snd (compute_quality_flags is_zero kwargs df) = Ok r ->
  quality_score r = PyFloat.max2 0 (1 - penalty_sum (contributions r df)) /\
  (has_missing r = false -> has_duplicate_rows r = false ->
   has_constant_column r = false -> has_high_cardinality_categories r = false ->
   has_suspicious_id_duplicates r = false -> has_many_zero_values r = false ->
   quality_score r = 1%float).
Proof.
  intros Hrun. apply compute_quality_flags_inv in Hrun as [_ Hd].
  assert (Hq : quality_score r = PyFloat.max2 0 (1 - penalty_sum (contributions r df)))
    by apply Hd.
  split; [exact Hq |].
  intros H1 H2 H3 H4 H5 H6. rewrite Hq. unfold contributions, penalty_sum.
  rewrite H1, H2, H3, H4, H5, H6. reflexivity.
Qed.

(** C2: whenever the function returns a report, its quality score is a
    float between [0.0] and [1.0], both ends included. *)
Theorem quality_score_bounds (kwargs : kwargs_t) (df : DataFrame scalar) (r : Report) :
  snd (compute_quality_flags is_zero kwargs df) = Ok r ->
  (0 <=? quality_score r)%float = true /\ (quality_score r <=? 1)%float = true.
Proof.
  intros Hrun. apply compute_quality_flags_inv in Hrun as [_ Hd].
  assert (Hq : quality_score r = PyFloat.max2 0 (1 - penalty_sum (contributions r df)))
    by apply Hd.
  rewrite Hq. apply PyFloatFacts.clamp_bounds, penalty_sum_nonneg.
  apply (contributions_nonneg kwargs), Hd.
Qed.


(** C9: the call leaves the frame it was given as it found it, whether it
    returns a report or raises. *)
Theorem input_frame_unchanged (kwargs : kwargs_t) (df : DataFrame scalar) :
  fst (compute_quality_flags is_zero kwargs df) = df.
Proof. apply compute_quality_flags_frame. Qed.

(** C5: in a returned report each of the six flags is set exactly when its
    evidence is there: some column has a positive count of missing entries
    (the recorded shares are these counts over the number of rows), the
    recorded count of duplicated rows is positive, and the lists of constant
    columns, of high-cardinality columns, of suspicious identifier columns
    and of many-zero columns are not empty. *)
Theorem flags_match_evidence (kwargs : kwargs_t) (df : DataFrame scalar) (r : Report) :
  snd (compute_quality_flags is_zero kwargs df) = Ok r ->
  (has_missing r = true <->
     exists c, In c (df_cols df) /\ (0 < series_isnull_sum (col_values c))%nat) /\
  missing_shares (metrics r) =
    map (fun c => (col_name c,
                   (PyFloat.of_count (series_isnull_sum (col_values c))
                    / PyFloat.of_count (index_len df))%float)) (df_cols df) /\
  (has_duplicate_rows r = true <-> (0 < duplicate_rows_count (metrics r))%nat) /\
  (has_constant_column r = true <-> constant_columns (metrics r) <> []) /\
  (has_high_cardinality_categories r = true <->
     high_cardinality_columns (metrics r) <> []) /\
  (has_suspicious_id_duplicates r = true <-> suspicious_id_columns (metrics r) <> []) /\
  (has_many_zero_values r = true <-> many_zero_columns (metrics r) <> []).
Proof.
  intros Hrun. apply compute_quality_flags_inv in Hrun as [_ Hd].
  destruct Hd as (Hm & Hs & _ & Hdup & _ & Hc & _ & Hh & _ & Hi & _ & Hz & _).
  rewrite Hm, Hs, Hdup, Hc, Hh, Hi, Hz.
  repeat split; try (apply ltb_length_nonempty; assumption);
    try (apply ltb_length_nonempty).
  - intros Hex. apply existsb_exists in Hex as ([name k] & Hin & Hk).
    apply in_map_iff in Hin as (c & Heq & Hin). injection Heq as _ <-.
    exists c. split; [exact Hin | apply Nat.ltb_lt, Hk].
  - intros (c & Hin & Hk). apply existsb_exists.
    exists (col_name c, series_isnull_sum (col_values c)). split.
    + apply in_map_iff. exists c. split; [reflexivity | exact Hin].
    + apply Nat.ltb_lt, Hk.
  - unfold df_isnull_sum. rewrite map_map. reflexivity.
  - apply Nat.ltb_lt.
  - apply Nat.ltb_lt.
Qed.

(** C6: in a returned report a column is listed as constant exactly when
    it has one distinct value among its entries that are not missing; a
    column with nothing but missing entries is not listed; every listed
    label is a column of the frame; and [has_constant_column] is set exactly
    when the list is not empty. *)
Theorem constant_columns_exact (kwargs : kwargs_t) (df : DataFrame scalar) (r : Report) :
  snd (compute_quality_flags is_zero kwargs df) = Ok r ->
  (forall c, In c (df_cols df) ->
     (In (col_name c) (constant_columns (metrics r)) <->
      exists x, In (Some x) (col_values c) /\
                forall y, In (Some y) (col_values c) -> y = x)) /\
  (forall c, In c (df_cols df) -> forallb is_missing (col_values c) = true ->
     ~ In (col_name c) (constant_columns (metrics r))) /\
  (forall label, In label (constant_columns (metrics r)) -> In label (df_columns df)) /\
  (has_constant_column r = true <-> constant_columns (metrics r) <> []).
Proof.
  intros Hrun. apply compute_quality_flags_inv in Hrun as [Hnd Hd].
  destruct Hd as (_ & _ & _ & _ & Hcc & Hc & _).
  assert (Hlisted : forall c, In c (df_cols df) ->
            (In (col_name c) (constant_columns (metrics r)) <->
             series_nunique (col_values c) = 1%nat)).
  { intros c Hin. rewrite Hcc. unfold constant_of.
    rewrite (in_concat_map_if (fun c => (series_nunique (col_values c) =? 1)%nat) col_name).
    split.
    - intros (c' & Hin' & Hone & Heq).
      rewrite (same_label_same_column df c c' Hnd Hin Hin' Heq).
      apply Nat.eqb_eq, Hone.
    - intros Hone. exists c. split; [exact Hin |].
      split; [apply Nat.eqb_eq, Hone | reflexivity]. }
  repeat split.
  - intros Hin'. apply series_nunique_one, Hlisted; assumption.
  - intros Hx. apply Hlisted; [assumption | apply series_nunique_one, Hx].
  - intros c Hin Hall Hin'. apply Hlisted in Hin'; [| exact Hin].
    rewrite (series_nunique_all_missing _ Hall) in Hin'. discriminate.
  - intros label Hin. rewrite Hcc in Hin. unfold constant_of in Hin.
    apply (in_concat_map_if (fun c => (series_nunique (col_values c) =? 1)%nat) col_name)
      in Hin as (c & Hc' & _ & ->).
    apply in_map, Hc'.
  - rewrite Hc. apply ltb_length_nonempty.
  - rewrite Hc. apply ltb_length_nonempty.
Qed.

(** C7 (as amended): the candidate identifier columns are the columns in
    whose label an [i] or [I] is directly followed by a [d] or [D]; the
    evidence of a returned report holds, for exactly the candidates whose
    count is positive, the label with the number of entries that repeat an
    earlier entry of the column; [has_suspicious_id_duplicates] is set
    exactly when some candidate has a positive count; without candidates
    the evidence is empty and the flag is clear; and the identifier check
    raises nothing on any frame. *)
Theorem suspicious_ids_evidence (kwargs : kwargs_t) (df : DataFrame scalar) (r : Report) :
  snd (compute_quality_flags is_zero kwargs df) = Ok r ->
  (forall c : Column scalar,
     is_id_column c = true <->
     exists pre a b post,
       col_name c = String.append pre (String a (String b post)) /\
       (a = "i"%char \/ a = "I"%char) /\ (b = "d"%char \/ b = "D"%char)) /\
  (forall label k,
     In (label, k) (suspicious_id_columns (metrics r)) <->
     exists c, In c (df_cols df) /\ is_id_column c = true /\ label = col_name c /\
               k = sum_true (duplicated (col_values c)) /\ (0 < k)%nat) /\
  (has_suspicious_id_duplicates r = true <->
     exists c, In c (df_cols df) /\ is_id_column c = true /\
               (0 < sum_true (duplicated (col_values c)))%nat) /\
  ((forall c, In c (df_cols df) -> is_id_column c = false) ->
     suspicious_id_columns (metrics r) = [] /\ has_suspicious_id_duplicates r = false) /\
  (forall df' : DataFrame scalar, exists l, suspicious_id_loop df' = (df', Ok l)).
Proof.
  intros Hrun. apply compute_quality_flags_inv in Hrun as [Hnd Hd].
  destruct Hd as (_ & _ & _ & _ & _ & _ & _ & _ & Hids & Hi & _).
  assert (Hev : forall label k,
            In (label, k) (suspicious_id_columns (metrics r)) <->
            exists c, In c (df_cols df) /\ is_id_column c = true /\ label = col_name c /\
                      k = sum_true (duplicated (col_values c)) /\ (0 < k)%nat).
  { intros label k. rewrite Hids. unfold suspicious_of.
    rewrite (in_concat_map_if (fun c => (0 <? duplicate_ids_of c)%nat)
               (fun c => (col_name c, duplicate_ids_of c))).
    unfold duplicate_ids_of. split.
    - intros (c & Hin & Hpos & Heq). injection Heq as -> ->.
      apply filter_In in Hin as [Hin Hid]. apply Nat.ltb_lt in Hpos.
      exists c. repeat split; assumption.
    - intros (c & Hin & Hid & -> & -> & Hpos). exists c.
      split; [apply filter_In; split; assumption |].
      split; [apply Nat.ltb_lt, Hpos | reflexivity]. }
  split; [intros c; apply PyStrFacts.contains_id_lower |].
  split; [exact Hev |].
  split; [| split; [| apply suspicious_id_loop_total]].
  - rewrite Hi, ltb_length_nonempty. split.
    + intros Hne. destruct (suspicious_id_columns (metrics r)) as [| [label k] l] eqn:Hl;
        [congruence |].
      destruct (Hev label k) as [(c & Hin & Hid & _ & -> & Hpos) _]; [left; reflexivity |].
      exists c. repeat split; assumption.
    + intros (c & Hin & Hid & Hpos) Hnil.
      assert (Hin' : In (col_name c, sum_true (duplicated (col_values c)))
                       (suspicious_id_columns (metrics r)))
        by (apply Hev; exists c; repeat split; assumption).
      rewrite Hnil in Hin'. destruct Hin'.
  - intros Hnone.
    assert (Hnil : suspicious_id_columns (metrics r) = []).
    { destruct (suspicious_id_columns (metrics r)) as [| [label k] l] eqn:Hl; [reflexivity |].
      destruct (Hev label k) as [(c & Hin & Hid & _) _]; [left; reflexivity |].
      rewrite (Hnone c Hin) in Hid. discriminate. }
    split; [exact Hnil | rewrite Hi, Hnil; reflexivity].
Qed.




(** ** Further properties of the function *)

(** *** Which way a call ends *)

Lemma constant_columns_loop_repeated (df : DataFrame scalar) :
  ~ List.NoDup (df_columns df) -> constant_columns_loop df = (df, Raise ValueError).
Proof.
  intros Hdup. unfold constant_columns_loop. rewrite bind_quiet_run by apply quiet_reads.
  cbn [reads snd].
  set (body := fun (col : string) (acc : list string) => bind (df_getitem col) _).
  rewrite (for_each_run (fun label => negb (label_unique df label))
             (fun label => match with_label label (df_cols df) with
                           | [c] => constant_of c
                           | _ => []
                           end) ValueError body).
  - destruct (existsb _ _) eqn:Hex; [reflexivity | exfalso].
    apply Hdup, label_unique_forallb, forallb_forall. intros label Hin.
    destruct (label_unique df label) eqn:Hu; [reflexivity | exfalso].
    assert (existsb (fun label => negb (label_unique df label)) (df_columns df) = true)
      by (apply existsb_exists; exists label; rewrite Hu; split; [exact Hin | reflexivity]).
    congruence.
  - intros label acc Hin. subst body. cbv beta. unfold bind, df_getitem, getitem, label_unique.
    fold (with_label label (df_cols df)).
    pose proof (with_label_present _ _ Hin) as Hne.
    destruct (with_label label (df_cols df)) as [| c [| c' cs]] eqn:Hwl; [congruence | |].
    + cbn. unfold ret, constant_of.
      assert (Hc : col_name c = label).
      { assert (Hin' : In c (with_label label (df_cols df))) by (rewrite Hwl; left; reflexivity).
        apply filter_In in Hin' as [_ Hb]. apply bool_decide_eq_true_1 in Hb. exact Hb. }
      rewrite Hc. destruct (_ =? 1)%nat; [reflexivity | rewrite app_nil_r; reflexivity].
    + reflexivity.
Qed.

(** The three ways a call can end. *)
Lemma compute_quality_flags_outcome (kwargs : kwargs_t) (df : DataFrame scalar) :
  (~ List.NoDup (df_columns df) /\
   compute_quality_flags is_zero kwargs df = (df, Raise ValueError)) \/
  (List.NoDup (df_columns df) /\
   (compute_quality_flags is_zero kwargs df = (df, Raise TypeError) \/
    exists r, compute_quality_flags is_zero kwargs df = (df, Ok r))).
Proof.
  pose proof (compute_quality_flags_run kwargs df) as Hc.
  destruct (forallb (label_unique df) (df_columns df)) eqn:Hu.
  - right. apply label_unique_forallb in Hu. split; [exact Hu |].
    rewrite (constant_columns_loop_run df Hu) in Hc. cbn [snd] in Hc.
    rewrite (high_cardinality_loop_run _ df Hu) in Hc.
    destruct (negb _ && negb _); cbn [snd] in Hc; [left; exact Hc |].
    rewrite (many_zero_loop_run _ df Hu) in Hc.
    destruct (negb _ && negb _); cbn [snd] in Hc; [left; exact Hc |].
    right. destruct Hc as (_ & r & Hr & _). exists r. exact Hr.
  - left.
    assert (Hdup : ~ List.NoDup (df_columns df)).
    { intros Hnd. apply label_unique_forallb in Hnd. congruence. }
    split; [exact Hdup |].
    rewrite (constant_columns_loop_repeated df Hdup) in Hc. exact Hc.
Qed.


(** X2: on a frame without columns, whatever the length of its index and
    whatever the keywords, the call returns the report with no flag set, no
    evidence and the score [1.0]. *)
Theorem no_columns_report (kwargs : kwargs_t) (df : DataFrame scalar) :
  df_cols df = [] ->
  exists r,
    compute_quality_flags is_zero kwargs df = (df, Ok r) /\
    has_missing r = false /\ has_duplicate_rows r = false /\
    has_constant_column r = false /\ has_high_cardinality_categories r = false /\
    has_suspicious_id_duplicates r = false /\ has_many_zero_values r = false /\
    quality_score r = 1%float /\
    metrics r = {| missing_shares := []; duplicate_rows_count := 0;
                   constant_columns := []; high_cardinality_columns := [];
                   suspicious_id_columns := []; many_zero_columns := [] |}.
Proof.
  intros Hcols.
  assert (Hnd : List.NoDup (df_columns df)) by (unfold df_columns; rewrite Hcols; constructor).
  destruct (compute_quality_flags_ok kwargs df Hnd) as (r & Hr & Hd);
    [right; unfold categorical_cols; rewrite Hcols; reflexivity
    | right; unfold numeric_cols; rewrite Hcols; reflexivity |].
  destruct Hd as (Hm & Hs & Hdc & Hdup & Hcc & Hc & Hhc & Hh & Hids & Hi & Hzs & Hz & Hq).
  unfold df_isnull_sum in Hm, Hs. rewrite Hcols in Hm, Hs, Hcc, Hids. cbn in Hm, Hs, Hcc, Hids.
  assert (Edc : duplicate_rows_count (metrics r) = 0%nat).
  { rewrite Hdc. unfold df_duplicated, df_empty. rewrite Hcols. cbn [length Nat.eqb].
    rewrite orb_true_r. reflexivity. }
  rewrite (high_cardinality_loop_run _ df Hnd) in Hhc.
  rewrite (many_zero_loop_run _ df Hnd) in Hzs.
  unfold categorical_cols in Hhc. unfold numeric_cols in Hzs. rewrite Hcols in Hhc, Hzs.
  cbn [List.filter length Nat.eqb negb andb map concat snd] in Hhc, Hzs.
  rewrite andb_false_r in Hhc, Hzs. cbn [snd] in Hhc, Hzs.
  injection Hhc as Hhc. injection Hzs as Hzs.
  rewrite Edc in Hdup. rewrite Hcc in Hc. rewrite <- Hhc in Hh. rewrite Hids in Hi.
  rewrite <- Hzs in Hz. cbn in Hdup, Hc, Hh, Hi, Hz.
  exists r. repeat (split; [assumption |]). split.
  - rewrite Hq. unfold contributions, penalty_sum. rewrite Hm, Hdup, Hc, Hh, Hi, Hz. reflexivity.
  - destruct r as [? ? ? ? ? ? ? m]. destruct m. cbn in *. congruence.
Qed.

(** *** The evidence of the two threshold checks *)

Lemma in_concat_map {A B : Type} (g : A -> list B) (l : list A) (y : B) :
  In y (concat (map g l)) <-> exists x, In x l /\ In y (g x).
Proof.
  rewrite in_concat. split.
  - intros (ys & Hys & Hy). apply in_map_iff in Hys as (x & <- & Hx). eauto.
  - intros (x & Hx & Hy). exists (g x). split; [apply in_map, Hx | exact Hy].
Qed.

Lemma high_cardinality_columns_inv (kwargs : kwargs_t) (df : DataFrame scalar) (r : Report) :
  snd (compute_quality_flags is_zero kwargs df) = Ok r ->
  high_cardinality_columns (metrics r)
  = concat (map (high_cardinality_of (high_cardinality_threshold_of kwargs))
              (categorical_cols df)).
Proof.
  intros Hrun. apply compute_quality_flags_inv in Hrun as [Hnd Hd].
  destruct Hd as (_ & _ & _ & _ & _ & _ & Hhc & _).
  rewrite (high_cardinality_loop_run _ df Hnd) in Hhc.
  destruct (negb _ && negb _); cbn [snd] in Hhc; [discriminate |].
  injection Hhc as <-. reflexivity.
Qed.

Lemma many_zero_columns_inv (kwargs : kwargs_t) (df : DataFrame scalar) (r : Report) :
  snd (compute_quality_flags is_zero kwargs df) = Ok r ->
  many_zero_columns (metrics r)
  = concat (map (many_zero_of is_zero (zero_threshold_of kwargs) df) (numeric_cols df)).
Proof.
  intros Hrun. apply compute_quality_flags_inv in Hrun as [Hnd Hd].
  destruct Hd as (_ & _ & _ & _ & _ & _ & _ & _ & _ & _ & Hzs & _).
  rewrite (many_zero_loop_run _ df Hnd) in Hzs.
  destruct (negb _ && negb _); cbn [snd] in Hzs; [discriminate |].
  injection Hzs as <-. reflexivity.
Qed.

(** The high-cardinality evidence, whatever the threshold is. *)
Lemma high_cardinality_columns_mem
    (kwargs : kwargs_t) (df : DataFrame scalar) (r : Report) :
  snd (compute_quality_flags is_zero kwargs df) = Ok r ->
  forall label n,
    In (label, n) (high_cardinality_columns (metrics r)) <->
    exists c, In c (df_cols df) /\ is_object_or_category (col_dtype c) = true /\
              label = col_name c /\ n = series_nunique (col_values c) /\
              int_gt n (high_cardinality_threshold_of kwargs) = Ok true.
Proof.
  intros Hrun label n. rewrite (high_cardinality_columns_inv kwargs df r Hrun).
  rewrite in_concat_map. unfold high_cardinality_of, categorical_cols. split.
  - intros (c & Hin & Hy). apply filter_In in Hin as [Hin Hty].
    destruct (int_gt _ _) as [[|] | e] eqn:Hgt; try destruct Hy as [].
    + injection H as <- <-. exists c. repeat split; assumption.
    + destruct H.
  - intros (c & Hin & Hty & -> & -> & Hgt). exists c.
    split; [apply filter_In; split; assumption |].
    rewrite Hgt. left. reflexivity.
Qed.

(** X3: with an integer threshold [t] (the default [100] included), the
    high-cardinality evidence of a returned report holds exactly the columns
    of dtype object or category that have more than [t] distinct values among
    their entries that are not missing, each with that number of values. *)
Theorem high_cardinality_evidence
    (kwargs : kwargs_t) (df : DataFrame scalar) (r : Report) (t : Z) :
  snd (compute_quality_flags is_zero kwargs df) = Ok r ->
  high_cardinality_threshold_of kwargs = PyInt t ->
  forall label n,
    In (label, n) (high_cardinality_columns (metrics r)) <->
    exists c, In c (df_cols df) /\ is_object_or_category (col_dtype c) = true /\
              label = col_name c /\ n = series_nunique (col_values c) /\
              t < Z.of_nat n.
Proof.
  intros Hrun Ht label n. rewrite (high_cardinality_columns_mem kwargs df r Hrun), Ht.
  cbn [int_gt]. split.
  - intros (c & Hin & Hty & Hl & Hn & Hgt). injection Hgt as Hgt. apply Z.ltb_lt in Hgt.
    exists c. repeat split; assumption.
  - intros (c & Hin & Hty & Hl & Hn & Hlt). apply Z.ltb_lt in Hlt.
    exists c. repeat split; try assumption. rewrite Hlt. reflexivity.
Qed.

(** X4: with a float threshold [f] (the default [0.5] included), the
    many-zero evidence of a returned report holds exactly the columns of a
    numeric dtype whose share of zero entries, the count of entries equal to
    zero over the number of rows, is greater than [f], each with that share. *)
Theorem many_zero_evidence
    (kwargs : kwargs_t) (df : DataFrame scalar) (r : Report) (f : float) :
  snd (compute_quality_flags is_zero kwargs df) = Ok r ->
  zero_threshold_of kwargs = PyFloat f ->
  forall label x,
    In (label, x) (many_zero_columns (metrics r)) <->
    exists c, In c (df_cols df) /\ is_number (col_dtype c) = true /\
              label = col_name c /\
              x = (PyFloat.of_count (series_eq_zero_sum is_zero (col_values c))
                   / PyFloat.of_count (index_len df))%float /\
              (f <? x)%float = true.
Proof.
  intros Hrun Hf label x. rewrite (many_zero_columns_inv kwargs df r Hrun), Hf.
  rewrite in_concat_map. unfold many_zero_of, zero_share_of, numeric_cols.
  cbn [float_gt]. unfold PyFloat.gt. split.
  - intros (c & Hin & Hy). apply filter_In in Hin as [Hin Hty].
    destruct (f <? _)%float eqn:Hlt; [| destruct Hy].
    destruct Hy as [Heq | []]. injection Heq as <- <-.
    exists c. repeat split; assumption.
  - intros (c & Hin & Hty & -> & -> & Hlt). exists c.
    split; [apply filter_In; split; assumption |].
    rewrite Hlt. left. reflexivity.
Qed.

(** X5: raising an integer [high_cardinality_threshold] can only remove
    evidence: what is reported under the larger threshold is reported under
    the smaller one, and the flag set under the larger one is set under the
    smaller one. *)
Theorem high_cardinality_threshold_monotone
    (kwargs kwargs' : kwargs_t) (df : DataFrame scalar) (r r' : Report) (t t' : Z) :
  snd (compute_quality_flags is_zero kwargs df) = Ok r ->
  snd (compute_quality_flags is_zero kwargs' df) = Ok r' ->
  high_cardinality_threshold_of kwargs = PyInt t ->
  high_cardinality_threshold_of kwargs' = PyInt t' ->
  t <= t' ->
  (forall label n,
     In (label, n) (high_cardinality_columns (metrics r')) ->
     In (label, n) (high_cardinality_columns (metrics r))) /\
  (has_high_cardinality_categories r' = true -> has_high_cardinality_categories r = true).
Proof.
  intros Hrun Hrun' Ht Ht' Hle.
  assert (Hsub : forall label n,
            In (label, n) (high_cardinality_columns (metrics r')) ->
            In (label, n) (high_cardinality_columns (metrics r))).
  { intros label n Hin.
    apply (high_cardinality_columns_mem kwargs' df r' Hrun') in Hin
      as (c & Hc & Hty & Hl & Hn & Hgt).
    apply (high_cardinality_columns_mem kwargs df r Hrun).
    rewrite Ht' in Hgt. rewrite Ht. cbn [int_gt] in *. injection Hgt as Hgt.
    apply Z.ltb_lt in Hgt.
    exists c. repeat split; try assumption. f_equal. apply Z.ltb_lt. lia. }
  split; [exact Hsub |].
  apply compute_quality_flags_inv in Hrun as [_ Hd].
  apply compute_quality_flags_inv in Hrun' as [_ Hd'].
  destruct Hd as (_ & _ & _ & _ & _ & _ & _ & Hh & _).
  destruct Hd' as (_ & _ & _ & _ & _ & _ & _ & Hh' & _).
  rewrite Hh, Hh', !ltb_length_nonempty.
  intros Hne Hnil. destruct (high_cardinality_columns (metrics r')) as [| [label n] l];
    [congruence |].
  specialize (Hsub label n (or_introl eq_refl)). rewrite Hnil in Hsub. destruct Hsub.
Qed.

(** *** What the keywords reach *)

(** A report is determined by the frame and by what the two threshold loops
    return. *)
Lemma describes_unique
    (kwargs kwargs' : kwargs_t) (df : DataFrame scalar) (r r' : Report) :
  describes is_zero kwargs df r -> describes is_zero kwargs' df r' ->
  high_cardinality_columns (metrics r) = high_cardinality_columns (metrics r') ->
  many_zero_columns (metrics r) = many_zero_columns (metrics r') ->
  r = r'.
Proof.
  intros (Hm & Hs & Hdc & Hdup & Hcc & Hc & _ & Hh & Hids & Hi & _ & Hz & Hq)
         (Hm' & Hs' & Hdc' & Hdup' & Hcc' & Hc' & _ & Hh' & Hids' & Hi' & _ & Hz' & Hq')
         Ehc Ezs.
  unfold contributions, max_missing_share, duplicate_row_share in Hq, Hq'.
  destruct r as [m1 m2 m3 m4 m5 m6 q [s1 s2 s3 s4 s5 s6]].
  destruct r' as [m1' m2' m3' m4' m5' m6' q' [s1' s2' s3' s4' s5' s6']].
  cbn in *. subst. reflexivity.
Qed.

(** X6: the keywords reach the high-cardinality and the many-zero check and
    nothing else: two calls on one frame that both return a report agree on
    the missing, duplicate-row, constant-column and identifier results
    whatever their keywords are, and the two reports are equal when the calls
    agree on the two thresholds. *)
Theorem keywords_reach_two_checks
    (kwargs kwargs' : kwargs_t) (df : DataFrame scalar) (r r' : Report) :
  snd (compute_quality_flags is_zero kwargs df) = Ok r ->
  snd (compute_quality_flags is_zero kwargs' df) = Ok r' ->
  (has_missing r = has_missing r' /\
   missing_shares (metrics r) = missing_shares (metrics r') /\
   has_duplicate_rows r = has_duplicate_rows r' /\
   duplicate_rows_count (metrics r) = duplicate_rows_count (metrics r') /\
   has_constant_column r = has_constant_column r' /\
   constant_columns (metrics r) = constant_columns (metrics r') /\
   has_suspicious_id_duplicates r = has_suspicious_id_duplicates r' /\
   suspicious_id_columns (metrics r) = suspicious_id_columns (metrics r')) /\
  (high_cardinality_threshold_of kwargs = high_cardinality_threshold_of kwargs' ->
   has_high_cardinality_categories r = has_high_cardinality_categories r' /\
   high_cardinality_columns (metrics r) = high_cardinality_columns (metrics r')) /\
  (zero_threshold_of kwargs = zero_threshold_of kwargs' ->
   has_many_zero_values r = has_many_zero_values r' /\
   many_zero_columns (metrics r) = many_zero_columns (metrics r')) /\
  (high_cardinality_threshold_of kwargs = high_cardinality_threshold_of kwargs' ->
   zero_threshold_of kwargs = zero_threshold_of kwargs' -> r = r').
Proof.
  intros Hrun Hrun'.
  pose proof (high_cardinality_columns_inv kwargs df r Hrun) as Ehc.
  pose proof (high_cardinality_columns_inv kwargs' df r' Hrun') as Ehc'.
  pose proof (many_zero_columns_inv kwargs df r Hrun) as Ezs.
  pose proof (many_zero_columns_inv kwargs' df r' Hrun') as Ezs'.
  apply compute_quality_flags_inv in Hrun as [_ Hd].
  apply compute_quality_flags_inv in Hrun' as [_ Hd'].
  pose proof Hd as (Hm & Hs & Hdc & Hdup & Hcc & Hc & _ & Hh & Hids & Hi & _ & Hz & _).
  pose proof Hd' as (Hm' & Hs' & Hdc' & Hdup' & Hcc' & Hc' & _ & Hh' & Hids' & Hi' & _ & Hz' & _).
  split; [| split; [| split]].
  - rewrite Hm, Hm', Hs, Hs', Hdup, Hdup', Hdc, Hdc', Hc, Hc', Hcc, Hcc', Hi, Hi', Hids, Hids'.
    repeat split; reflexivity.
  - intros Et. rewrite Hh, Hh', Ehc, Ehc', Et. split; reflexivity.
  - intros Et. rewrite Hz, Hz', Ezs, Ezs', Et. split; reflexivity.
  - intros Et1 Et2. apply (describes_unique kwargs kwargs' df); try assumption.
    + rewrite Ehc, Ehc', Et1. reflexivity.
    + rewrite Ezs, Ezs', Et2. reflexivity.
Qed.

(** X7: a threshold is looked at only when the frame has a column of the
    kind it is compared with: without a numeric column the call does not
    depend on [zero_threshold], and without an object or category column it
    does not depend on [high_cardinality_threshold], whatever these are
    bound to. *)
Theorem threshold_without_columns_unused
    (kwargs kwargs' : kwargs_t) (df : DataFrame scalar) :
  (numeric_cols df = [] ->
   high_cardinality_threshold_of kwargs = high_cardinality_threshold_of kwargs' ->
   compute_quality_flags is_zero kwargs df = compute_quality_flags is_zero kwargs' df) /\
  (categorical_cols df = [] ->
   zero_threshold_of kwargs = zero_threshold_of kwargs' ->
   compute_quality_flags is_zero kwargs df = compute_quality_flags is_zero kwargs' df).
Proof.
  assert (Hgen :
    forall kw kw' : kwargs_t,
      List.NoDup (df_columns df) ->
      snd (high_cardinality_loop (high_cardinality_threshold_of kw) df)
        = snd (high_cardinality_loop (high_cardinality_threshold_of kw') df) ->
      snd (many_zero_loop is_zero (zero_threshold_of kw) df)
        = snd (many_zero_loop is_zero (zero_threshold_of kw') df) ->
      compute_quality_flags is_zero kw df = compute_quality_flags is_zero kw' df).
  { intros kw kw' Hnd E1 E2.
    pose proof (compute_quality_flags_run kw df) as Hc.
    pose proof (compute_quality_flags_run kw' df) as Hc'.
    rewrite (constant_columns_loop_run df Hnd) in Hc, Hc'. cbn [snd] in Hc, Hc'.
    rewrite <- E1 in Hc'.
    destruct (snd (high_cardinality_loop (high_cardinality_threshold_of kw) df))
      as [hc | e] eqn:Ehc; [| congruence].
    rewrite <- E2 in Hc'.
    destruct (snd (many_zero_loop is_zero (zero_threshold_of kw) df)) as [zs | e] eqn:Ezs;
      [| congruence].
    destruct Hc as (_ & r & Hr & Hd). destruct Hc' as (_ & r' & Hr' & Hd').
    rewrite Hr, Hr'. do 2 f_equal.
    apply (describes_unique kw kw' df); try assumption.
    - destruct Hd as (_ & _ & _ & _ & _ & _ & Hh & _).
      destruct Hd' as (_ & _ & _ & _ & _ & _ & Hh' & _).
      congruence.
    - destruct Hd as (_ & _ & _ & _ & _ & _ & _ & _ & _ & _ & Hz & _).
      destruct Hd' as (_ & _ & _ & _ & _ & _ & _ & _ & _ & _ & Hz' & _).
      congruence. }
  destruct (compute_quality_flags_outcome kwargs df) as [[Hdup Hr] | [Hnd _]].
  - destruct (compute_quality_flags_outcome kwargs' df) as [[_ Hr'] | [Hnd' _]];
      [| contradiction].
    split; intros _ _; congruence.
  - split.
    + intros Hnone Et. apply Hgen; [exact Hnd | rewrite Et; reflexivity |].
      rewrite !(many_zero_loop_run _ df Hnd), Hnone. cbn. rewrite !andb_false_r. reflexivity.
    + intros Hnone Et. apply Hgen; [exact Hnd | | rewrite Et; reflexivity].
      rewrite !(high_cardinality_loop_run _ df Hnd), Hnone. cbn.
      rewrite !andb_false_r. reflexivity.
Qed.

(** *** Repeated rows and repeated identifiers *)

Lemma df_rows_length (df : DataFrame scalar) : length (df_rows df) = index_len df.
Proof. unfold df_rows. rewrite length_map, length_seq. reflexivity. Qed.

Lemma remove_dups_nonempty {A : Type} `{EqDecision A} (l : list A) :
  l <> [] -> (0 < length (remove_dups l))%nat.
Proof.
  destruct l as [| x l]; [congruence | intros _].
  assert (Hx : x ∈ remove_dups (x :: l)) by (apply elem_of_remove_dups; left).
  destruct (remove_dups (x :: l)); [inversion Hx | cbn; lia].
Qed.

Lemma sum_true_zero_ltb (k : nat) : (0 <? k)%nat = false <-> k = 0%nat.
Proof. rewrite Nat.ltb_ge. lia. Qed.

(** X8: on a frame with at least one column, the recorded number of
    duplicated rows and the number of distinct rows add up to the number of
    rows, and [has_duplicate_rows] is clear exactly when no two rows are
    equal; on every frame with rows the recorded number is smaller than the
    number of rows. *)
Theorem duplicate_rows_law (kwargs : kwargs_t) (df : DataFrame scalar) (r : Report) :
  snd (compute_quality_flags is_zero kwargs df) = Ok r ->
  (df_cols df <> [] ->
   (duplicate_rows_count (metrics r) + length (remove_dups (df_rows df)))%nat
     = index_len df /\
   (has_duplicate_rows r = false <-> List.NoDup (df_rows df))) /\
  ((0 < index_len df)%nat ->
   (duplicate_rows_count (metrics r) < index_len df)%nat).
Proof.
  intros Hrun. apply compute_quality_flags_inv in Hrun as [_ Hd].
  destruct Hd as (_ & _ & Hdc & Hdup & _).
  unfold df_duplicated, df_empty in Hdc.
  pose proof (df_rows_length df) as Hlen.
  pose proof (duplicated_count (df_rows df)) as Hcount.
  split.
  - intros Hcols.
    assert (Hc : (length (df_cols df) =? 0)%nat = false).
    { destruct (df_cols df); [congruence | reflexivity]. }
    rewrite Hc, orb_false_r in Hdc.
    destruct (index_len df =? 0)%nat eqn:Hn.
    + apply Nat.eqb_eq in Hn. rewrite Hn in Hlen.
      destruct (df_rows df); [| discriminate].
      rewrite Hdup, Hdc, Hn. cbn. split; [reflexivity |].
      split; [constructor | reflexivity].
    + rewrite Hdup, Hdc. split; [lia |].
      rewrite sum_true_zero_ltb. apply duplicated_none.
  - intros Hpos.
    destruct ((index_len df =? 0)%nat || (length (df_cols df) =? 0)%nat);
      [rewrite Hdc; exact Hpos |].
    assert (Hne : df_rows df <> []).
    { intros E. rewrite E in Hlen. cbn in Hlen. lia. }
    pose proof (remove_dups_nonempty (df_rows df) Hne). lia.
Qed.

(** X9: a candidate identifier column of a returned report is listed as
    suspicious exactly when two of its entries are equal, a missing entry
    counting as equal to another missing entry; the number listed with it
    and the number of its distinct entries add up to the number of its
    entries. *)
Theorem suspicious_id_repeats (kwargs : kwargs_t) (df : DataFrame scalar) (r : Report) :
  snd (compute_quality_flags is_zero kwargs df) = Ok r ->
  forall c : Column scalar,
    In c (df_cols df) -> is_id_column c = true ->
    ((exists k, In (col_name c, k) (suspicious_id_columns (metrics r))) <->
     ~ List.NoDup (col_values c)) /\
    (forall k, In (col_name c, k) (suspicious_id_columns (metrics r)) ->
       (k + length (remove_dups (col_values c)))%nat = length (col_values c)).
Proof.
  intros Hrun c Hin Hid. apply compute_quality_flags_inv in Hrun as [Hnd Hd].
  destruct Hd as (_ & _ & _ & _ & _ & _ & _ & _ & Hids & _).
  assert (Hmem : forall k, In (col_name c, k) (suspicious_id_columns (metrics r)) <->
                           k = duplicate_ids_of c /\ (0 < k)%nat).
  { intros k. rewrite Hids. unfold suspicious_of.
    rewrite (in_concat_map_if (fun c => (0 <? duplicate_ids_of c)%nat)
               (fun c => (col_name c, duplicate_ids_of c))).
    split.
    - intros (c' & Hin' & Hk & Heq). apply filter_In in Hin' as [Hin' _].
      injection Heq as Hname ->.
      rewrite (same_label_same_column df c c' Hnd Hin Hin' Hname).
      split; [reflexivity | apply Nat.ltb_lt, Hk].
    - intros [-> Hk]. exists c. split; [apply filter_In; split; assumption |].
      split; [apply Nat.ltb_lt, Hk | reflexivity]. }
  pose proof (duplicated_none (col_values c)) as Hnone.
  pose proof (duplicated_count (col_values c)) as Hcount.
  fold (duplicate_ids_of c) in Hnone, Hcount.
  split.
  - split.
    + intros [k Hk]. apply Hmem in Hk as [-> Hk]. rewrite <- Hnone. lia.
    + intros Hrep. exists (duplicate_ids_of c). apply Hmem. split; [reflexivity |].
      destruct (duplicate_ids_of c); [| lia].
      exfalso. apply Hrep, Hnone. reflexivity.
  - intros k Hk. apply Hmem in Hk as [-> _]. exact Hcount.
Qed.

(** *** The order of the evidence *)

Lemma concat_map_filter {A B : Type} (p : A -> bool) (g : A -> list B) (l : list A) :
  concat (map g (List.filter p l)) = concat (map (fun x => if p x then g x else []) l).
Proof.
  induction l as [| x l IH]; [reflexivity |].
  cbn. destruct (p x); cbn; rewrite IH; reflexivity.
Qed.

Lemma labels_sublist {B : Type} (g : Column scalar -> list B) (label : B -> string)
    (cols : list (Column scalar)) :
  (forall c, g c = [] \/ exists b, g c = [b] /\ label b = col_name c) ->
  sublist (map label (concat (map g cols))) (map col_name cols).
Proof.
  intros Hg. induction cols as [| c cols IH]; [constructor |].
  cbn. destruct (Hg c) as [-> | (b & -> & Hb)]; cbn.
  - apply sublist_cons, IH.
  - rewrite Hb. apply sublist_skip, IH.
Qed.

(** X10: the evidence of a returned report follows the order of the
    columns: the missing shares are listed for every label in column
    order, and the labels of the constant, high-cardinality, suspicious
    identifier and many-zero columns are each obtained from the list of
    column labels by leaving labels out, so that no label is listed twice. *)
Theorem evidence_in_column_order (kwargs : kwargs_t) (df : DataFrame scalar) (r : Report) :
  snd (compute_quality_flags is_zero kwargs df) = Ok r ->
  map fst (missing_shares (metrics r)) = df_columns df /\
  (sublist (constant_columns (metrics r)) (df_columns df) /\
   sublist (map fst (high_cardinality_columns (metrics r))) (df_columns df) /\
   sublist (map fst (suspicious_id_columns (metrics r))) (df_columns df) /\
   sublist (map fst (many_zero_columns (metrics r))) (df_columns df)) /\
  (List.NoDup (constant_columns (metrics r)) /\
   List.NoDup (map fst (high_cardinality_columns (metrics r))) /\
   List.NoDup (map fst (suspicious_id_columns (metrics r))) /\
   List.NoDup (map fst (many_zero_columns (metrics r)))).
Proof.
  intros Hrun.
  pose proof (high_cardinality_columns_inv kwargs df r Hrun) as Ehc.
  pose proof (many_zero_columns_inv kwargs df r Hrun) as Ezs.
  apply compute_quality_flags_inv in Hrun as [Hnd Hd].
  destruct Hd as (_ & Hs & _ & _ & Hcc & _ & _ & _ & Hids & _).
  assert (H1 : sublist (constant_columns (metrics r)) (df_columns df)).
  { rewrite Hcc, <- (map_id (concat _)). apply labels_sublist.
    intros c. unfold constant_of. destruct (_ =? 1)%nat; eauto. }
  assert (H2 : sublist (map fst (high_cardinality_columns (metrics r))) (df_columns df)).
  { rewrite Ehc. unfold categorical_cols. rewrite concat_map_filter.
    apply labels_sublist. intros c. unfold high_cardinality_of.
    destruct (is_object_or_category _); [| left; reflexivity].
    destruct (int_gt _ _) as [[|] | e]; eauto. }
  assert (H3 : sublist (map fst (suspicious_id_columns (metrics r))) (df_columns df)).
  { rewrite Hids, concat_map_filter. apply labels_sublist. intros c. unfold suspicious_of.
    destruct (is_id_column c); [| left; reflexivity].
    destruct (0 <? _)%nat; eauto. }
  assert (H4 : sublist (map fst (many_zero_columns (metrics r))) (df_columns df)).
  { rewrite Ezs. unfold numeric_cols. rewrite concat_map_filter.
    apply labels_sublist. intros c. unfold many_zero_of.
    destruct (is_number _); [| left; reflexivity].
    destruct (float_gt _ _) as [[|] | e]; eauto. }
  split; [| split].
  - rewrite Hs. unfold df_isnull_sum, df_columns. rewrite !map_map.
    apply map_ext. reflexivity.
  - repeat split; assumption.
  - apply NoDup_ListNoDup in Hnd.
    repeat split; apply NoDup_ListNoDup; eapply sublist_NoDup; eassumption.
Qed.

(** ** The columns [report] highlights (eda_cli/cli.py) *)

Lemma bad_missing_cols_mem (t : float) (df : DataFrame scalar) (label : string) :
  In label (bad_missing_cols t df) <->
  exists c, In c (df_cols df) /\ label = col_name c /\
            (t <=? PyFloat.of_count (series_isnull_sum (col_values c))
                   / PyFloat.of_count (index_len df))%float = true.
Proof.
  unfold bad_missing_cols, isnull_mean. rewrite in_map_iff. split.
  - intros ([name x] & <- & Hin). apply filter_In in Hin as [Hin Hle].
    apply in_map_iff in Hin as (c & Heq & Hin). injection Heq as <- <-.
    exists c. repeat split; assumption.
  - intros (c & Hin & -> & Hle). eexists (col_name c, _). split; [reflexivity |].
    apply filter_In. split; [| exact Hle].
    apply in_map_iff. exists c. split; [reflexivity | exact Hin].
Qed.


(** X12: on a frame without rows, whose columns are all empty, [report]
    highlights no column, whatever [min_missing_share] is. *)
Theorem bad_missing_cols_no_rows (t : float) (df : DataFrame scalar) :
  index_len df = 0%nat -> aligned df -> bad_missing_cols t df = [].
Proof.
  intros Hlen Hal.
  destruct (bad_missing_cols t df) as [| label l] eqn:E; [reflexivity |].
  assert (Hin : In label (bad_missing_cols t df)) by (rewrite E; left; reflexivity).
  apply bad_missing_cols_mem in Hin as (c & Hin & _ & Hle).
  rewrite (no_rows_no_values df c Hlen Hal Hin), Hlen in Hle.
  change (PyFloat.of_count (series_isnull_sum []) / PyFloat.of_count 0)%float
    with nan in Hle.
  rewrite PyFloatFacts.ge_nan_l in Hle. discriminate.
Qed.

End PandasFacts.

(** The reports of the scenarios. *)

Example sample_df_report :
  exists r, analyze ∅ sample_df = (sample_df, Ok r) /\
    has_missing r = true /\ has_duplicate_rows r = false /\ has_constant_column r = false /\
    missing_shares (metrics r) = [("age", 0.25%float); ("height", 0%float); ("city", 0.25%float)].
Proof. eexists. split; [vm_compute; reflexivity | repeat split]. Qed.

Example constant_df_report :
  exists r, analyze ∅ constant_df = (constant_df, Ok r) /\
    has_constant_column r = true /\ constant_columns (metrics r) = ["A"].
Proof. eexists. split; [vm_compute; reflexivity | repeat split]. Qed.

Example user_id_df_report :
  exists r, analyze ∅ user_id_df = (user_id_df, Ok r) /\
    has_suspicious_id_duplicates r = true /\
    suspicious_id_columns (metrics r) = [("user_id", 1%nat)].
Proof. eexists. split; [vm_compute; reflexivity | repeat split]. Qed.

Example mostly_zeros_df_report :
  exists r, analyze ∅ mostly_zeros_df = (mostly_zeros_df, Ok r) /\
    has_many_zero_values r = true /\
    many_zero_columns (metrics r) = [("mostly_zeros", (5 / 6)%float)].
Proof. eexists. split; [vm_compute; reflexivity | repeat split]. Qed.

Example hundred_categories_threshold_50 :
  exists r,
    analyze {["high_cardinality_threshold" := PyInt 50]} hundred_categories_df
      = (hundred_categories_df, Ok r) /\
    has_high_cardinality_categories r = true /\
    high_cardinality_columns (metrics r) = [("cat", 100%nat)].
Proof. eexists. split; [vm_compute; reflexivity | repeat split]. Qed.

(** The keyword of the test-suite is not the one the function reads: the
    default threshold [100] stays in force and the flag stays clear. *)
Example hundred_categories_max_cardinality_50 :
  exists r,
    analyze {["max_cardinality_threshold" := PyInt 50]} hundred_categories_df
      = (hundred_categories_df, Ok r) /\
    has_high_cardinality_categories r = false /\
    high_cardinality_columns (metrics r) = [].
Proof. eexists. split; [vm_compute; reflexivity | repeat split]. Qed.

(** ** The properties at concrete frames *)

(** After the report of a run has been computed: name the fact that the run
    returns it. *)
Ltac returned H kwargs df :=
  match goal with
  | |- context [quality_score ?r] =>
      assert (H : snd (compute_quality_flags pyscalar_is_zero kwargs df) = Ok r)
        by (vm_compute; reflexivity)
  | |- context [metrics ?r] =>
      assert (H : snd (compute_quality_flags pyscalar_is_zero kwargs df) = Ok r)
        by (vm_compute; reflexivity)
  end.

Lemma quality_score_formula_witness :
  exists r,
    snd (analyze ∅ order_id_df) = Ok r /\
    quality_score r = PyFloat.max2 0 (1 - penalty_sum (contributions r order_id_df)) /\
    quality_score r = 1%float.
Proof.
  eexists. split; [vm_compute; reflexivity |].
  returned H (∅ : kwargs_t) order_id_df.
  destruct (quality_score_formula pyscalar_is_zero ∅ order_id_df _ H) as [Hq Hone].
  split; [exact Hq | apply Hone; reflexivity].
Defined.

(** C1 as stated fails: with four constant columns out of five the function
    returns [0.92], and the formula with [0.1 * (4 / 5)] gives
    [0.9199999999999999]. *)
Lemma quality_score_formula_counterexample :
  exists r,
    snd (analyze ∅ four_of_five_df) = Ok r /\
    quality_score r = 0.92%float /\
    PyFloat.max2 0 (1 - penalty_sum (claimed_contributions r four_of_five_df))
      = 0.9199999999999999%float /\
    quality_score r
      <> PyFloat.max2 0 (1 - penalty_sum (claimed_contributions r four_of_five_df)).
Proof.
  eexists. split; [vm_compute; reflexivity |].
  split; [vm_compute; reflexivity |].
  split; [vm_compute; reflexivity |].
  intros H. apply (f_equal (fun x => (x =? 0.92)%float)) in H.
  vm_compute in H. discriminate.
Qed.

Lemma quality_score_bounds_witness :
  exists r,
    snd (analyze ∅ mostly_zeros_df) = Ok r /\
    (0 <=? quality_score r)%float = true /\ (quality_score r <=? 1)%float = true.
Proof.
  eexists. split; [vm_compute; reflexivity |].
  returned H (∅ : kwargs_t) mostly_zeros_df.
  exact (quality_score_bounds pyscalar_is_zero ∅ mostly_zeros_df _ H).
Defined.





Lemma flags_match_evidence_witness :
  exists r,
    snd (analyze ∅ sample_df) = Ok r /\
    (has_missing r = true <->
       exists c, In c (df_cols sample_df) /\ (0 < series_isnull_sum (col_values c))%nat) /\
    (has_duplicate_rows r = true <-> (0 < duplicate_rows_count (metrics r))%nat) /\
    (has_constant_column r = true <-> constant_columns (metrics r) <> []).
Proof.
  eexists. split; [vm_compute; reflexivity |].
  returned H (∅ : kwargs_t) sample_df.
  destruct (flags_match_evidence pyscalar_is_zero ∅ sample_df _ H)
    as (H1 & _ & H2 & H3 & _).
  split; [exact H1 | split; [exact H2 | exact H3]].
Defined.

Lemma constant_columns_exact_witness :
  exists r,
    snd (analyze ∅ constant_df) = Ok r /\
    In "A" (constant_columns (metrics r)) /\
    ~ In "B" (constant_columns (metrics r)) /\
    has_constant_column r = true.
Proof.
  eexists. split; [vm_compute; reflexivity |].
  returned H (∅ : kwargs_t) constant_df.
  destruct (constant_columns_exact pyscalar_is_zero ∅ constant_df _ H)
    as (Hiff & _ & _ & Hflag).
  split; [| split].
  - apply (Hiff {| col_name := "A"; col_dtype := Int64; col_values := ints [1; 1; 1] |}).
    + left. reflexivity.
    + exists (SInt 1). split; [left; reflexivity |].
      intros y Hy. cbn in Hy. intuition congruence.
  - intros HB.
    apply (Hiff {| col_name := "B"; col_dtype := Int64; col_values := ints [2; 3; 4] |}) in HB;
      [| right; left; reflexivity].
    destruct HB as (x & _ & Hall).
    assert (SInt 2 = x) by (apply Hall; left; reflexivity).
    assert (SInt 3 = x) by (apply Hall; right; left; reflexivity).
    congruence.
  - apply Hflag. discriminate.
Defined.

Lemma suspicious_ids_evidence_witness :
  exists r,
    snd (analyze ∅ user_id_df) = Ok r /\
    In ("user_id", 1%nat) (suspicious_id_columns (metrics r)) /\
    has_suspicious_id_duplicates r = true.
Proof.
  eexists. split; [vm_compute; reflexivity |].
  returned H (∅ : kwargs_t) user_id_df.
  destruct (suspicious_ids_evidence pyscalar_is_zero ∅ user_id_df _ H)
    as (_ & Hev & Hflag & _).
  split.
  - apply Hev.
    exists {| col_name := "user_id"; col_dtype := Int64; col_values := ints [1; 2; 2; 4] |}.
    repeat split; [left; reflexivity | vm_compute; lia].
  - apply Hflag.
    exists {| col_name := "user_id"; col_dtype := Int64; col_values := ints [1; 2; 2; 4] |}.
    repeat split; [left; reflexivity | vm_compute; lia].
Defined.

(** C7 as stated fails: [order_id] is a candidate, none of its entries
    repeats an earlier one, and the evidence does not record the column with
    its count. *)
Lemma suspicious_ids_evidence_counterexample :
  exists r c,
    snd (analyze ∅ order_id_df) = Ok r /\
    In c (df_cols order_id_df) /\
    is_id_column c = true /\
    sum_true (duplicated (col_values c)) = 0%nat /\
    suspicious_id_columns (metrics r) = [] /\
    ~ In (col_name c, sum_true (duplicated (col_values c))) (suspicious_id_columns (metrics r)).
Proof.
  eexists.
  exists {| col_name := "order_id"; col_dtype := Int64; col_values := ints [1; 2; 3; 4] |}.
  split; [vm_compute; reflexivity |].
  split; [left; reflexivity |].
  split; [reflexivity |]. split; [reflexivity |]. split; [reflexivity |].
  intros [].
Qed.


(** ** The further properties on the scenarios *)


Lemma no_columns_report_witness :
  exists r,
    analyze {["zero_threshold" := PyNone]} no_columns_df = (no_columns_df, Ok r) /\
    quality_score r = 1%float /\ has_duplicate_rows r = false.
Proof.
  destruct (no_columns_report pyscalar_is_zero {["zero_threshold" := PyNone]} no_columns_df)
    as (r & Hr & _ & Hdup & _ & _ & _ & _ & Hq & _); [reflexivity |].
  exists r. split; [exact Hr | split; assumption].
Defined.

Lemma high_cardinality_evidence_witness :
  exists r,
    snd (analyze {["high_cardinality_threshold" := PyInt 1]} cat_df) = Ok r /\
    In ("cat", 2%nat) (high_cardinality_columns (metrics r)).
Proof.
  eexists. split; [vm_compute; reflexivity |].
  returned H ({["high_cardinality_threshold" := PyInt 1]} : kwargs_t) cat_df.
  apply (high_cardinality_evidence pyscalar_is_zero _ cat_df _ 1 H); [reflexivity |].
  exists {| col_name := "cat"; col_dtype := Object; col_values := strs ["A"; "B"; "A"] |}.
  repeat split; try (left; reflexivity); try (vm_compute; reflexivity).
Defined.

Lemma many_zero_evidence_witness :
  exists r x,
    snd (analyze {["zero_threshold" := PyFloat 0.8]} mostly_zeros_df) = Ok r /\
    In ("mostly_zeros", x) (many_zero_columns (metrics r)) /\
    (0.8 <? x)%float = true.
Proof.
  eexists. exists (PyFloat.of_count 5 / PyFloat.of_count 6)%float.
  split; [vm_compute; reflexivity |].
  returned H ({["zero_threshold" := PyFloat 0.8]} : kwargs_t) mostly_zeros_df.
  split; [| vm_compute; reflexivity].
  apply (many_zero_evidence pyscalar_is_zero _ mostly_zeros_df _ 0.8%float H); [reflexivity |].
  exists {| col_name := "mostly_zeros"; col_dtype := Int64;
            col_values := ints [0; 0; 0; 0; 0; 1] |}.
  repeat split; try (left; reflexivity); try (vm_compute; reflexivity).
Defined.

Lemma high_cardinality_threshold_monotone_witness :
  exists r r',
    snd (analyze {["high_cardinality_threshold" := PyInt 0]} cat_df) = Ok r /\
    snd (analyze {["high_cardinality_threshold" := PyInt 1]} cat_df) = Ok r' /\
    has_high_cardinality_categories r' = true /\
    has_high_cardinality_categories r = true.
Proof.
  do 2 eexists. split; [vm_compute; reflexivity |]. split; [vm_compute; reflexivity |].
  match goal with
  | |- has_high_cardinality_categories ?r' = true /\
       has_high_cardinality_categories ?r = true =>
      assert (H : snd (compute_quality_flags pyscalar_is_zero
                         {["high_cardinality_threshold" := PyInt 0]} cat_df) = Ok r)
        by (vm_compute; reflexivity);
      assert (H' : snd (compute_quality_flags pyscalar_is_zero
                          {["high_cardinality_threshold" := PyInt 1]} cat_df) = Ok r')
        by (vm_compute; reflexivity)
  end.
  split; [reflexivity |].
  destruct (high_cardinality_threshold_monotone pyscalar_is_zero _ _ cat_df _ _ 0 1 H H')
    as [_ Hflag]; [reflexivity | reflexivity | lia |].
  apply Hflag. reflexivity.
Defined.

Lemma keywords_reach_two_checks_witness :
  exists r r',
    snd (analyze ∅ user_id_df) = Ok r /\
    snd (analyze {["zero_threshold" := PyFloat 0.1]} user_id_df) = Ok r' /\
    suspicious_id_columns (metrics r) = suspicious_id_columns (metrics r') /\
    has_high_cardinality_categories r = has_high_cardinality_categories r'.
Proof.
  do 2 eexists. split; [vm_compute; reflexivity |]. split; [vm_compute; reflexivity |].
  match goal with
  | |- suspicious_id_columns (metrics ?r) = suspicious_id_columns (metrics ?r') /\ _ =>
      assert (H : snd (compute_quality_flags pyscalar_is_zero ∅ user_id_df) = Ok r)
        by (vm_compute; reflexivity);
      assert (H' : snd (compute_quality_flags pyscalar_is_zero
                          {["zero_threshold" := PyFloat 0.1]} user_id_df) = Ok r')
        by (vm_compute; reflexivity)
  end.
  destruct (keywords_reach_two_checks pyscalar_is_zero _ _ user_id_df _ _ H H')
    as ((_ & _ & _ & _ & _ & _ & _ & Hids) & Hhc & _).
  split; [exact Hids |]. apply Hhc. reflexivity.
Defined.

Lemma threshold_without_columns_unused_witness :
  analyze {["zero_threshold" := PyStr "half"]} cat_df = analyze ∅ cat_df.
Proof.
  destruct (threshold_without_columns_unused pyscalar_is_zero
              {["zero_threshold" := PyStr "half"]} ∅ cat_df) as [Hnumeric _].
  apply Hnumeric; reflexivity.
Defined.

Lemma duplicate_rows_law_witness :
  exists r,
    snd (analyze ∅ repeats_df) = Ok r /\
    (duplicate_rows_count (metrics r) + length (remove_dups (df_rows repeats_df)))%nat
      = 5%nat /\
    (duplicate_rows_count (metrics r) < 5)%nat.
Proof.
  eexists. split; [vm_compute; reflexivity |].
  returned H (∅ : kwargs_t) repeats_df.
  destruct (duplicate_rows_law pyscalar_is_zero ∅ repeats_df _ H) as [Hlaw Hlt].
  split.
  - apply Hlaw. discriminate.
  - apply Hlt. vm_compute. lia.
Defined.

Lemma suspicious_id_repeats_witness :
  exists r k,
    snd (analyze ∅ user_id_df) = Ok r /\
    In ("user_id", k) (suspicious_id_columns (metrics r)) /\
    (k + 3 = 4)%nat.
Proof.
  eexists. exists 1%nat. split; [vm_compute; reflexivity |].
  returned H (∅ : kwargs_t) user_id_df.
  destruct (suspicious_id_repeats pyscalar_is_zero ∅ user_id_df _ H
              {| col_name := "user_id"; col_dtype := Int64; col_values := ints [1; 2; 2; 4] |})
    as [_ Hcount]; [left; reflexivity | reflexivity |].
  split; [left; reflexivity |].
  apply (Hcount 1%nat). left. reflexivity.
Defined.

Lemma evidence_in_column_order_witness :
  exists r,
    snd (analyze ∅ sample_df) = Ok r /\
    map fst (missing_shares (metrics r)) = ["age"; "height"; "city"].
Proof.
  eexists. split; [vm_compute; reflexivity |].
  returned H (∅ : kwargs_t) sample_df.
  destruct (evidence_in_column_order pyscalar_is_zero ∅ sample_df _ H) as [Hlabels _].
  exact Hlabels.
Defined.


Lemma bad_missing_cols_no_rows_witness :
  bad_missing_cols 0 no_rows_df = [].
Proof.
  apply bad_missing_cols_no_rows; [reflexivity | repeat constructor].
Defined.
